(** * CryptoTradeSimulator: the order book and the execution simulator

    A shallow embedding of [src/trade_simulator.py] (classes [OrderBook]
    and [TradeSimulator]) and the properties of its specification.

    Numbers.  The Python code computes on [float]; the specification's data
    model speaks of real numbers.  The book is modelled on exact rationals
    in canonical form ([Qc]), which have a decidable Leibniz equality and
    are executable: a finite float is a rational, and comparison, equality,
    dict lookup and sorting on finite floats are those of their values.
    Infinities and NaN are outside the book.  The simulator is modelled
    twice: on exact rationals, and in module [B64] on binary64 floats, where
    every operation rounds as in the source.  What depends on the
    arithmetic of the source is stated on [B64].

    Dictionaries.  [OrderBook.bids] and [OrderBook.asks] are Python dicts
    keyed by price; they are read only through [sorted(... .items())], whose
    result does not depend on insertion order because keys are unique, so
    they are modelled as finite maps [gmap Qc Qc].

    Effects.  [OrderBook.update] mutates the book: it is a function from the
    book before to the book after.  [TradeSimulator._simulate_trade] runs in
    a state-and-exception monad over the simulator object, so that what it
    leaves in the object and whether it raises are part of its result. *)

From Stdlib Require Import QArith Qcanon Lqa.
From Stdlib Require PrimFloat FloatOps SpecFloat.
From stdpp Require Import numbers strings gmap sorting list.

Open Scope Qc_scope.

(** ** Numbers *)

(** Literals: [qz z] is the integer [z], [qfrac n d] the fraction [n/d]. *)
Definition qz (z : Z) : Qc := Q2Qc (inject_Z z).
Definition qfrac (n : Z) (d : positive) : Qc := Q2Qc (n # d).

(** Python's [min(a, b)]: [b] when [b < a], else [a]. *)
Definition py_min (a b : Qc) : Qc := if decide (b < a) then b else a.

(** ** Python exceptions and the state-and-exception monad *)

Inductive exn : Type :=
  | IndexError
  | ZeroDivisionError.

Inductive Result (A : Type) : Type :=
  | Ok (a : A)
  | Raise (e : exn).
Arguments Ok {A} a.
Arguments Raise {A} e.

Module Py.

Definition M (S A : Type) : Type := S → Result A * S.

Definition ret {S A} (a : A) : M S A := λ s, (Ok a, s).

Definition bind {S A B} (m : M S A) (k : A → M S B) : M S B :=
  λ s, match m s with
       | (Ok a, s') => k a s'
       | (Raise e, s') => (Raise e, s')
       end.

(** Read an attribute of the object in the state. *)
Definition gets {S A} (f : S → A) : M S A := λ s, (Ok (f s), s).

Definition lift {S A} (r : Result A) : M S A := λ s, (r, s).

(** [a / b] on numbers. *)
Definition div (a b : Qc) : Result Qc :=
  if decide (b = 0) then Raise ZeroDivisionError else Ok (a / b).

(** [l[i]] for a list, negative indices counting from the end. *)
Definition index {A} (l : list A) (i : Z) : Result A :=
  let n := Z.of_nat (length l) in
  let j := if decide (i < 0)%Z then (n + i)%Z else i in
  if decide (0 ≤ j < n)%Z then
    match l !! Z.to_nat j with
    | Some x => Ok x
    | None => Raise IndexError
    end
  else Raise IndexError.

End Py.

Notation "'let*' x ':=' m 'in' k" := (Py.bind m (λ x, k))
  (at level 10, x name, m at level 100, k at level 200, only parsing).

(** ** OrderBook *)

(** A level is a [(price, size)] pair, an item of the dict. *)
Definition Level : Type := Qc * Qc.

Record OrderBook : Type := mkOrderBook {
  bids : gmap Qc Qc;
  asks : gmap Qc Qc
}.

(** [OrderBook.__init__]: both sides empty. *)
Definition OrderBook_init : OrderBook := {| bids := ∅; asks := ∅ |}.

(** The two values of the loop variable [side] of [update]. *)
Inductive Side : Type := Bids | Asks.

Definition get_side (side : Side) (b : OrderBook) : gmap Qc Qc :=
  match side with Bids => bids b | Asks => asks b end.

Definition set_side (side : Side) (m : gmap Qc Qc) (b : OrderBook) : OrderBook :=
  match side with
  | Bids => {| bids := m; asks := asks b |}
  | Asks => {| bids := bids b; asks := m |}
  end.

(** The body of the inner loop of [update] on one dict:
    [if size == 0: (if price in book_side: del book_side[price])
     else: book_side[price] = size]. *)
Definition update_side (price size : Qc) (book_side : gmap Qc Qc) : gmap Qc Qc :=
  if decide (size = 0) then
    if decide (is_Some (book_side !! price)) then delete price book_side
    else book_side
  else <[price := size]> book_side.

(** One iteration of the inner loop of [update], for the pair
    [(price, size)] of [side]. *)
Definition apply_level (side : Side) (price size : Qc) (b : OrderBook) : OrderBook :=
  set_side side (update_side price size (get_side side b)) b.

(** The message [data] after [float(price_str)] and [float(size_str)]:
    for each of the keys ["bids"] and ["asks"], absent or a list of
    [(price, size)] pairs. *)
Record Data : Type := mkData {
  data_bids : option (list Level);
  data_asks : option (list Level)
}.

(** [data.get(side, [])]. *)
Definition data_get (side : Side) (data : Data) : list Level :=
  default [] (match side with Bids => data_bids data | Asks => data_asks data end).

(** The inner [for] loop of [update] for one side. *)
Definition update_levels (side : Side) (levels : list Level) (b : OrderBook) : OrderBook :=
  foldl (λ acc lv, apply_level side lv.1 lv.2 acc) b levels.

(** [OrderBook.update]: [for side in ["bids", "asks"]: for ... in data.get(side, [])]. *)
Definition update (data : Data) (b : OrderBook) : OrderBook :=
  foldl (λ acc side, update_levels side (data_get side data) acc) b [Bids; Asks].

(** The keys of [sorted]: ascending by price, and with [reverse=True]. *)
Definition price_asc (x y : Level) : Prop := x.1 ≤ y.1.
Definition price_desc (x y : Level) : Prop := y.1 ≤ x.1.

#[global] Instance price_asc_dec : RelDecision price_asc :=
  λ x y, decide (x.1 ≤ y.1).
#[global] Instance price_desc_dec : RelDecision price_desc :=
  λ x y, decide (y.1 ≤ x.1).

(** [OrderBook.get_sorted_bids]. *)
Definition get_sorted_bids (b : OrderBook) : list Level :=
  merge_sort price_desc (map_to_list (bids b)).

(** [OrderBook.get_sorted_asks]. *)
Definition get_sorted_asks (b : OrderBook) : list Level :=
  merge_sort price_asc (map_to_list (asks b)).

(** ** TradeSimulator *)

Record TradeSimulator : Type := mkTradeSimulator {
  orderbook : OrderBook;
  taker_fee_rate : Qc
}.

(** The dict returned by [_simulate_trade]. *)
Record FillReport : Type := mkFillReport {
  executed_quantity : Qc;
  average_price : Qc;
  total_cost : Qc;
  slippage : Qc;
  fee : Qc;
  remaining_quantity : Qc
}.

(** The local variables the [for] loop of [_simulate_trade] updates. *)
Record Walk : Type := mkWalk {
  remaining_qty : Qc;
  total_cost_acc : Qc;
  executed_qty : Qc
}.

(** One pass through the body of the loop, before the [break] test. *)
Definition walk_step (lv : Level) (w : Walk) : Walk :=
  let '(price, size) := lv in
  let available := size in
  let trade_qty := py_min (remaining_qty w) available in
  {| remaining_qty := remaining_qty w - trade_qty;
     total_cost_acc := total_cost_acc w + trade_qty * price;
     executed_qty := executed_qty w + trade_qty |}.

(** [for price, size in book_side: ...; if remaining_qty <= 0: break]. *)
Fixpoint walk (book_side : list Level) (w : Walk) : Walk :=
  match book_side with
  | [] => w
  | lv :: rest =>
      let w' := walk_step lv w in
      if decide (remaining_qty w' ≤ 0) then w' else walk rest w'
  end.

(** [TradeSimulator._simulate_trade]. *)
Definition _simulate_trade (quantity : Qc) (is_buy : bool)
  : Py.M TradeSimulator FillReport :=
  let* book_side := Py.gets (λ self,
      if is_buy then get_sorted_asks (orderbook self)
      else get_sorted_bids (orderbook self)) in
  let w := walk book_side
             {| remaining_qty := quantity; total_cost_acc := 0; executed_qty := 0 |} in
  let* avg_price := (if decide (executed_qty w = 0) then Py.ret 0
                     else Py.lift (Py.div (total_cost_acc w) (executed_qty w))) in
  let* slippage := (if decide (0 < executed_qty w) then
                      let* best := Py.lift (if is_buy then Py.index book_side 0%Z
                                            else Py.index book_side (-1)%Z) in
                      Py.ret (avg_price - best.1)
                    else Py.ret 0) in
  let* rate := Py.gets taker_fee_rate in
  let fee := total_cost_acc w * rate in
  Py.ret {| executed_quantity := executed_qty w;
            average_price := avg_price;
            total_cost := total_cost_acc w;
            slippage := slippage;
            fee := fee;
            remaining_quantity := remaining_qty w |}.

(** [TradeSimulator.simulate_buy] and [TradeSimulator.simulate_sell]. *)
Definition simulate_buy (quantity : Qc) : Py.M TradeSimulator FillReport :=
  _simulate_trade quantity true.

Definition simulate_sell (quantity : Qc) : Py.M TradeSimulator FillReport :=
  _simulate_trade quantity false.

(** ** Decidable equality of results, for evaluating closed examples *)

#[global] Instance exn_eq_dec : EqDecision exn.
Proof. solve_decision. Defined.

#[global] Instance Result_eq_dec {A} `{EqDecision A} : EqDecision (Result A).
Proof. solve_decision. Defined.

#[global] Instance FillReport_eq_dec : EqDecision FillReport.
Proof. solve_decision. Defined.

#[global] Instance OrderBook_eq_dec : EqDecision OrderBook.
Proof. solve_decision. Defined.

#[global] Instance TradeSimulator_eq_dec : EqDecision TradeSimulator.
Proof. solve_decision. Defined.

(** ** Derived notions used in the statements *)

(** The sorted view of one side. *)
Definition sorted_view (side : Side) (b : OrderBook) : list Level :=
  match side with
  | Bids => get_sorted_bids b
  | Asks => get_sorted_asks b
  end.

(** The side a trade consumes: [is_buy] walks the asks, a sell the bids. *)
Definition consumed_side (is_buy : bool) : Side := if is_buy then Asks else Bids.

(** Strict price orders on levels. *)
Definition price_lt (x y : Level) : Prop := x.1 < y.1.
Definition price_gt (x y : Level) : Prop := y.1 < x.1.

(** Sum of a list of numbers, and the total resting size of one dict. *)
Definition qsum (l : list Qc) : Qc := foldr Qcplus 0 l.
Definition depth (m : gmap Qc Qc) : Qc := qsum (map_to_list m).*2.

(** Every level of a dict has a positive (resp. non-negative) size. *)
Definition sizes_positive (m : gmap Qc Qc) : Prop := map_Forall (λ _ s, 0 < s) m.
Definition sizes_nonneg (m : gmap Qc Qc) : Prop := map_Forall (λ _ s, 0 ≤ s) m.

(** The book invariant of the data model: no level with size [≤ 0]. *)
Definition book_positive (b : OrderBook) : Prop :=
  sizes_positive (bids b) ∧ sizes_positive (asks b).

(** A message that respects the documented input range of the level
    update: every price positive, every size non-negative. *)
Definition level_in_range (lv : Level) : Prop := 0 < lv.1 ∧ 0 ≤ lv.2.
Definition data_in_range (data : Data) : Prop :=
  Forall level_in_range (data_get Bids data) ∧
  Forall level_in_range (data_get Asks data).

(** The book after a sequence of [update] calls, first message first. *)
Definition run_updates (msgs : list Data) (b : OrderBook) : OrderBook :=
  foldl (λ acc data, update data acc) b msgs.

(** The report of a trade that consumed nothing. *)
Definition empty_report (quantity : Qc) : FillReport :=
  {| executed_quantity := 0; average_price := 0; total_cost := 0;
     slippage := 0; fee := 0; remaining_quantity := quantity |}.

(** The start of the loop of [_simulate_trade]. *)
Definition walk_init (quantity : Qc) : Walk :=
  {| remaining_qty := quantity; total_cost_acc := 0; executed_qty := 0 |}.

(** The price [_simulate_trade] subtracts from the average price:
    [book_side[0][0]] for a buy, [book_side[-1][0]] for a sell. *)
Definition baseline (is_buy : bool) (book_side : list Level) : option Qc :=
  match (if is_buy then head book_side else last book_side) with
  | Some lv => Some lv.1
  | None => None
  end.

(** The report [_simulate_trade] builds from the view [book_side] it
    walked, in closed form; [simulate_trade_run] below proves that the
    monadic code returns it. *)
Definition report_of (is_buy : bool) (book_side : list Level)
    (rate quantity : Qc) : FillReport :=
  let w := walk book_side (walk_init quantity) in
  let avg_price :=
    if decide (executed_qty w = 0) then 0
    else total_cost_acc w / executed_qty w in
  {| executed_quantity := executed_qty w;
     average_price := avg_price;
     total_cost := total_cost_acc w;
     slippage := if decide (0 < executed_qty w)
                 then avg_price - default 0 (baseline is_buy book_side)
                 else 0;
     fee := total_cost_acc w * rate;
     remaining_quantity := remaining_qty w |}.

(** A message that carries one level for one side and no key for the
    other side. *)
Definition level_message (side : Side) (price size : Qc) : Data :=
  match side with
  | Bids => {| data_bids := Some [(price, size)]; data_asks := None |}
  | Asks => {| data_bids := None; data_asks := Some [(price, size)] |}
  end.

(** The call raised an exception. *)
Definition rejects {S A} (m : Py.M S A) (s : S) : Prop :=
  ∃ e, (m s).1 = Raise e.

(** ** Books and simulators of the examples *)

(** The book a fresh [OrderBook] holds after one snapshot message. *)
Definition book_of (bid_levels ask_levels : list Level) : OrderBook :=
  update {| data_bids := Some bid_levels; data_asks := Some ask_levels |}
         OrderBook_init.

(** [TAKER_FEE_RATE = 0.0006]. *)
Definition TAKER_FEE_RATE : Qc := qfrac 6 10000.

(** [TradeSimulator(orderbook)], with the default fee rate. *)
Definition simulator_of (b : OrderBook) : TradeSimulator :=
  {| orderbook := b; taker_fee_rate := TAKER_FEE_RATE |}.

(** bids [{100: 1.0, 99: 2.0}], no asks. *)
Definition two_bids : OrderBook :=
  book_of [(qz 100, qz 1); (qz 99, qz 2)] [].

(** asks [{100: 1.0, 101: 2.0}], no bids. *)
Definition two_asks : OrderBook :=
  book_of [] [(qz 100, qz 1); (qz 101, qz 2)].

(** asks [{100: 1.0}], no bids. *)
Definition one_ask : OrderBook := book_of [] [(qz 100, qz 1)].

(** asks [{100: 3.0, 101: -2.0}]: a level with a negative size. *)
Definition negative_ask : OrderBook :=
  book_of [] [(qz 100, qz 3); (qz 101, qz (-2))].

(** Two messages in range: a snapshot, then a delta that removes the
    bid at 100 and overwrites the ask at 101. *)
Definition example_feed : list Data :=
  [ {| data_bids := Some [(qz 100, qz 1); (qz 99, qz 2)];
       data_asks := Some [(qz 101, qz 1); (qz 102, qz 4)] |};
    {| data_bids := Some [(qz 100, 0)];
       data_asks := Some [(qz 101, qz 3)] |} ].

#[global] Instance level_in_range_dec lv : Decision (level_in_range lv).
Proof. unfold level_in_range. apply _. Defined.

#[global] Instance data_in_range_dec data : Decision (data_in_range data).
Proof. unfold data_in_range. apply _. Defined.

#[global] Instance sizes_positive_dec m : Decision (sizes_positive m).
Proof. unfold sizes_positive. apply _. Defined.

#[global] Instance sizes_nonneg_dec m : Decision (sizes_nonneg m).
Proof. unfold sizes_nonneg. apply _. Defined.

(** ** [OrderBook.update] on the message as received

    The entries of [data["bids"]] and [data["asks"]] are lists of strings
    [[price_str, size_str, ...]].  The builtin [float] is a parameter: a
    partial function from strings to numbers, [None] where Python raises
    [ValueError].  Strings that Python converts to an infinity or to NaN
    have no number here and are outside the model. *)

Inductive update_exn : Type := ValueError.

(** How a call of [update] ends: it returns, or an exception leaves it. *)
Inductive Outcome : Type :=
  | Done
  | Failed (e : update_exn).

Record RawData : Type := mkRawData {
  raw_bids : option (list (list string));
  raw_asks : option (list (list string))
}.

(** [data.get(side, [])]. *)
Definition raw_get (side : Side) (data : RawData) : list (list string) :=
  default [] (match side with Bids => raw_bids data | Asks => raw_asks data end).

Section raw_update.
Variable float : string → option Qc.

(** [price_str, size_str, *_ = entry; price = float(price_str);
    size = float(size_str)]: [None] when the unpacking or a conversion
    raises [ValueError]. *)
Definition parse_entry (entry : list string) : option Level :=
  match entry with
  | price_str :: size_str :: _ =>
      match float price_str with
      | Some price =>
          match float size_str with
          | Some size => Some (price, size)
          | None => None
          end
      | None => None
      end
  | _ => None
  end.

(** The inner [for] loop of [update] for one side, on the entries as
    received: the first entry that raises ends the loop, with the book as
    the entries before it left it. *)
Fixpoint update_entries (side : Side) (entries : list (list string))
    (b : OrderBook) : Outcome * OrderBook :=
  match entries with
  | [] => (Done, b)
  | entry :: rest =>
      match parse_entry entry with
      | Some (price, size) => update_entries side rest (apply_level side price size b)
      | None => (Failed ValueError, b)
      end
  end.

(** [OrderBook.update] on the message as received. *)
Definition update_raw (data : RawData) (b : OrderBook) : Outcome * OrderBook :=
  match update_entries Bids (raw_get Bids data) b with
  | (Done, b') => update_entries Asks (raw_get Asks data) b'
  | (Failed e, b') => (Failed e, b')
  end.

(** The entries of one side converted, when all of them convert. *)
Definition parse_entries (entries : list (list string)) : option (list Level) :=
  mapM parse_entry entries.

(** The message converted, when all its entries convert; a key that is
    missing stays missing. *)
Definition parse_data (data : RawData) : option Data :=
  match parse_entries (raw_get Bids data), parse_entries (raw_get Asks data) with
  | Some _, Some _ =>
      Some {| data_bids := raw_bids data ≫= parse_entries;
              data_asks := raw_asks data ≫= parse_entries |}
  | _, _ => None
  end.

End raw_update.

(** The message with every entry cut to its first two fields. *)
Definition keep_two_fields (data : RawData) : RawData :=
  let cut (entries : list (list string)) : list (list string) :=
    (take 2 : list string → list string) <$> entries in
  {| raw_bids := cut <$> raw_bids data;
     raw_asks := cut <$> raw_asks data |}.

(** A message whose second bid entry has one field only, and a message
    whose second ask entry has a size that is no number. *)
Definition short_bid_message : RawData :=
  {| raw_bids := Some [["100"; "1.5"]; ["99"]; ["101"; "0"]];
     raw_asks := Some [["101"; "1.5"]] |}.

Definition bad_ask_message : RawData :=
  {| raw_bids := Some [["99"; "1.5"; "0"; "4"]];
     raw_asks := Some [["100"; "1.5"]; ["101"; "x"]] |}.

(** A conversion table for the examples: [float] on five literals. *)
Definition example_float (s : string) : option Qc :=
  if decide (s = "100") then Some (qz 100)
  else if decide (s = "99") then Some (qz 99)
  else if decide (s = "101") then Some (qz 101)
  else if decide (s = "1.5") then Some (qfrac 3 2)
  else if decide (s = "0") then Some 0
  else None.

(** ** Further derived notions *)

(** The inner loop of [update] on the dict of its side. *)
Definition update_dict (levels : list Level) (m : gmap Qc Qc) : gmap Qc Qc :=
  foldl (λ acc lv, update_side lv.1 lv.2 acc) m levels.

(** ** [_simulate_trade] in binary64

    The definitions above compute on exact rationals.  The source computes
    on binary64 floats, where every [+], [-], [*] and [/] rounds.  This
    module is lines 47-77 of the source again, on Rocq's primitive binary64
    floats, operation for operation.  It reads the same book: the levels of
    the sorted view are converted to the floats of their values, and so is
    the fee rate.  The quantity is a float, any float. *)

Module B64.

(** The float nearest to an integer. *)
Definition of_Z (z : Z) : PrimFloat.float :=
  FloatOps.SF2Prim
    (SpecFloat.binary_normalize FloatOps.prec FloatOps.emax z 0 false).

(** The float of a number [n/d]: the correctly rounded quotient of [n] and
    [d] when both are below 2^53 in absolute value, which is the float
    Python reads from a decimal literal of that value, and the float itself
    when [n/d] is the value of a float. *)
Definition of_Qc (q : Qc) : PrimFloat.float :=
  PrimFloat.div (of_Z (Qnum q)) (of_Z (Zpos (Qden q))).

Definition Level : Type := PrimFloat.float * PrimFloat.float.

Definition level_of (lv : Qc * Qc) : Level := (of_Qc lv.1, of_Qc lv.2).

(** [book_side = self.orderbook.get_sorted_asks() if is_buy
                 else self.orderbook.get_sorted_bids()]. *)
Definition book_side (is_buy : bool) (b : OrderBook) : list Level :=
  level_of <$> (if is_buy then get_sorted_asks b else get_sorted_bids b).

(** Python's [min(a, b)]: [b] when [b < a], else [a]. *)
Definition py_min (a b : PrimFloat.float) : PrimFloat.float :=
  if PrimFloat.ltb b a then b else a.

(** [a / b]: Python raises when the divisor equals zero. *)
Definition div (a b : PrimFloat.float) : Result PrimFloat.float :=
  if PrimFloat.eqb b PrimFloat.zero then Raise ZeroDivisionError
  else Ok (PrimFloat.div a b).

Record FillReport : Type := mkFillReport {
  executed_quantity : PrimFloat.float;
  average_price : PrimFloat.float;
  total_cost : PrimFloat.float;
  slippage : PrimFloat.float;
  fee : PrimFloat.float;
  remaining_quantity : PrimFloat.float
}.

Record Walk : Type := mkWalk {
  remaining_qty : PrimFloat.float;
  total_cost_acc : PrimFloat.float;
  executed_qty : PrimFloat.float
}.

(** [remaining_qty = quantity; total_cost = 0.0; executed_qty = 0.0]. *)
Definition walk_init (quantity : PrimFloat.float) : Walk :=
  {| remaining_qty := quantity;
     total_cost_acc := PrimFloat.zero;
     executed_qty := PrimFloat.zero |}.

(** One pass through the body of the loop, before the [break] test. *)
Definition walk_step (lv : Level) (w : Walk) : Walk :=
  let '(price, size) := lv in
  let available := size in
  let trade_qty := py_min (remaining_qty w) available in
  {| remaining_qty := PrimFloat.sub (remaining_qty w) trade_qty;
     total_cost_acc := PrimFloat.add (total_cost_acc w) (PrimFloat.mul trade_qty price);
     executed_qty := PrimFloat.add (executed_qty w) trade_qty |}.

(** [for price, size in book_side: ...; if remaining_qty <= 0: break]. *)
Fixpoint walk (levels : list Level) (w : Walk) : Walk :=
  match levels with
  | [] => w
  | lv :: rest =>
      let w' := walk_step lv w in
      if PrimFloat.leb (remaining_qty w') PrimFloat.zero then w' else walk rest w'
  end.


(** [TradeSimulator._simulate_trade]. *)
Definition _simulate_trade (quantity : PrimFloat.float) (is_buy : bool)
  : Py.M TradeSimulator FillReport :=
  let* levels := Py.gets (λ self, book_side is_buy (orderbook self)) in
  let w := walk levels (walk_init quantity) in
  let* avg_price := (if PrimFloat.eqb (executed_qty w) PrimFloat.zero
                     then Py.ret PrimFloat.zero
                     else Py.lift (div (total_cost_acc w) (executed_qty w))) in
  let* slippage := (if PrimFloat.ltb PrimFloat.zero (executed_qty w) then
                      let* best := Py.lift (if is_buy then Py.index levels 0%Z
                                            else Py.index levels (-1)%Z) in
                      Py.ret (PrimFloat.sub avg_price best.1)
                    else Py.ret PrimFloat.zero) in
  let* rate := Py.gets (λ self, of_Qc (taker_fee_rate self)) in
  let fee := PrimFloat.mul (total_cost_acc w) rate in
  Py.ret {| executed_quantity := executed_qty w;
            average_price := avg_price;
            total_cost := total_cost_acc w;
            slippage := slippage;
            fee := fee;
            remaining_quantity := remaining_qty w |}.

Definition simulate_buy (quantity : PrimFloat.float) : Py.M TradeSimulator FillReport :=
  _simulate_trade quantity true.

Definition simulate_sell (quantity : PrimFloat.float) : Py.M TradeSimulator FillReport :=
  _simulate_trade quantity false.

(** The report [_simulate_trade] builds from the levels it walked, in
    closed form; [B64_simulate_trade_run] proves that the code returns
    it. *)
Definition report_of (is_buy : bool) (levels : list Level)
    (rate quantity : PrimFloat.float) : FillReport :=
  let w := walk levels (walk_init quantity) in
  let avg_price :=
    if PrimFloat.eqb (executed_qty w) PrimFloat.zero then PrimFloat.zero
    else PrimFloat.div (total_cost_acc w) (executed_qty w) in
  {| executed_quantity := executed_qty w;
     average_price := avg_price;
     total_cost := total_cost_acc w;
     slippage :=
       if PrimFloat.ltb PrimFloat.zero (executed_qty w)
       then PrimFloat.sub avg_price
              (default PrimFloat.zero
                 (fst <$> (if is_buy then head levels else last levels)))
       else PrimFloat.zero;
     fee := PrimFloat.mul (total_cost_acc w) rate;
     remaining_quantity := remaining_qty w |}.

End B64.


(** ** Arithmetic on canonical rationals, through [Q] and [lra] *)

Lemma Qc_eq_this (x y : Qc) : x = y ↔ (this x == this y)%Q.
Proof. split; [by intros -> | apply Qc_is_canon]. Qed.

Ltac qc_to_q :=
  repeat match goal with
  | H : @eq Qc _ _ |- _ => apply Qc_eq_this in H
  | H : ¬ @eq Qc _ _ |- _ => rewrite Qc_eq_this in H
  | |- @eq Qc _ _ => apply Qc_eq_this
  | |- ¬ @eq Qc _ _ => rewrite Qc_eq_this
  end;
  unfold Qcle, Qclt, Qcminus, Qcplus, Qcmult, Qcopp, Q2Qc in *; cbn [this] in *;
  rewrite ?Qred_correct in *.
Ltac qc_lra := qc_to_q; lra.
Ltac qc_nra := qc_to_q; nra.

Lemma py_min_le_l (a b : Qc) : py_min a b ≤ a.
Proof. unfold py_min. case_decide; qc_lra. Qed.

Lemma py_min_le_r (a b : Qc) : py_min a b ≤ b.
Proof. unfold py_min. case_decide; qc_lra. Qed.

Lemma py_min_glb (a b c : Qc) : c ≤ a → c ≤ b → c ≤ py_min a b.
Proof. unfold py_min. by case_decide. Qed.

Lemma qsum_cons (x : Qc) (l : list Qc) : qsum (x :: l) = x + qsum l.
Proof. reflexivity. Qed.

Lemma qsum_nonneg (l : list Qc) : Forall (λ x, 0 ≤ x) l → 0 ≤ qsum l.
Proof.
  induction 1 as [|x l Hx _ IH]; [done|].
  rewrite qsum_cons. by apply Qcplus_nonneg_nonneg.
Qed.

Lemma qsum_Permutation (l1 l2 : list Qc) : l1 ≡ₚ l2 → qsum l1 = qsum l2.
Proof.
  induction 1 as [|x l1 l2 _ IH|x y l|l1 l2 l3 _ IH1 _ IH2].
  - done.
  - by rewrite !qsum_cons, IH.
  - rewrite !qsum_cons. qc_lra.
  - by rewrite IH1.
Qed.

(** ** The level update on one dict *)

Section update_side.
Implicit Types (price size : Qc) (m : gmap Qc Qc).

Lemma update_side_zero price m : update_side price 0 m = delete price m.
Proof.
  unfold update_side. rewrite decide_True by done.
  case_decide as Hin; [done|].
  symmetry. apply delete_id. by apply eq_None_not_Some.
Qed.

Lemma update_side_nonzero price size m :
  size ≠ 0 → update_side price size m = <[price := size]> m.
Proof. intros Hs. unfold update_side. by rewrite decide_False. Qed.

Lemma update_side_lookup price size m :
  update_side price size m !! price = if decide (size = 0) then None else Some size.
Proof.
  case_decide as Hs.
  - subst. by rewrite update_side_zero, lookup_delete_eq.
  - by rewrite update_side_nonzero, lookup_insert_eq.
Qed.

Lemma update_side_lookup_ne price size m p :
  p ≠ price → update_side price size m !! p = m !! p.
Proof.
  intros Hp. destruct (decide (size = 0)) as [->|Hs].
  - by rewrite update_side_zero, lookup_delete_ne.
  - by rewrite update_side_nonzero, lookup_insert_ne.
Qed.

Lemma update_side_absent price m :
  m !! price = None → update_side price 0 m = m.
Proof. intros. rewrite update_side_zero. by apply delete_id. Qed.

Lemma update_side_idem price size m :
  update_side price size (update_side price size m) = update_side price size m.
Proof.
  destruct (decide (size = 0)) as [->|Hs].
  - by rewrite !update_side_zero, delete_delete_eq.
  - by rewrite !update_side_nonzero, insert_insert_eq.
Qed.

Lemma update_side_positive price size m :
  0 ≤ size → sizes_positive m → sizes_positive (update_side price size m).
Proof.
  intros Hs Hm p s. destruct (decide (p = price)) as [->|Hp].
  - rewrite update_side_lookup. case_decide as Hz; [done|].
    intros [= <-]. qc_lra.
  - rewrite update_side_lookup_ne by done. apply Hm.
Qed.
End update_side.

(** ** The level update on the book *)

Lemma get_set_side side m b : get_side side (set_side side m b) = m.
Proof. by destruct side. Qed.

Lemma set_set_side side m1 m2 b :
  set_side side m2 (set_side side m1 b) = set_side side m2 b.
Proof. by destruct side. Qed.

Lemma get_side_apply_level side price size b :
  get_side side (apply_level side price size b)
  = update_side price size (get_side side b).
Proof. unfold apply_level. apply get_set_side. Qed.

Lemma get_side_apply_level_other side side' price size b :
  side ≠ side' →
  get_side side' (apply_level side price size b) = get_side side' b.
Proof. by destruct side, side'. Qed.

Lemma apply_level_idem side price size b :
  apply_level side price size (apply_level side price size b)
  = apply_level side price size b.
Proof.
  unfold apply_level.
  by rewrite get_set_side, set_set_side, update_side_idem.
Qed.

Lemma update_unfold data b :
  update data b
  = update_levels Asks (data_get Asks data) (update_levels Bids (data_get Bids data) b).
Proof. reflexivity. Qed.

Lemma book_positive_init : book_positive OrderBook_init.
Proof. split; apply map_Forall_empty. Qed.

Lemma apply_level_positive side price size b :
  0 ≤ size → book_positive b → book_positive (apply_level side price size b).
Proof.
  intros Hs [Hb Ha].
  destruct side; split; simpl; auto using update_side_positive.
Qed.

Lemma update_levels_positive side levels b :
  Forall level_in_range levels → book_positive b →
  book_positive (update_levels side levels b).
Proof.
  unfold update_levels. intros Hl. revert b.
  induction Hl as [|lv levels [_ Hs] _ IH]; intros b Hb; simpl; [done|].
  apply IH. by apply apply_level_positive.
Qed.

Lemma update_positive data b :
  data_in_range data → book_positive b → book_positive (update data b).
Proof.
  intros [Hbids Hasks] Hb. rewrite update_unfold.
  by repeat apply update_levels_positive.
Qed.

Lemma run_updates_positive msgs b :
  Forall data_in_range msgs → book_positive b →
  book_positive (run_updates msgs b).
Proof.
  unfold run_updates. intros Hm. revert b.
  induction Hm as [|data msgs Hd _ IH]; intros b Hb; simpl; [done|].
  apply IH. by apply update_positive.
Qed.

(** ** The sorted views *)

#[global] Instance price_asc_trans : Transitive price_asc.
Proof. intros x y z. unfold price_asc. apply Qcle_trans. Qed.

#[global] Instance price_asc_total : Total price_asc.
Proof. intros x y. unfold price_asc. apply (total Qcle). Qed.

#[global] Instance price_desc_trans : Transitive price_desc.
Proof. intros x y z Hxy Hyz. unfold price_desc in *. by eapply Qcle_trans. Qed.

#[global] Instance price_desc_total : Total price_desc.
Proof. intros x y. unfold price_desc. apply (total Qcle). Qed.

Lemma sorted_view_Permutation side b :
  sorted_view side b ≡ₚ map_to_list (get_side side b).
Proof. destruct side; apply merge_sort_Permutation. Qed.

Lemma elem_of_sorted_view side b price size :
  (price, size) ∈ sorted_view side b ↔ get_side side b !! price = Some size.
Proof. by rewrite sorted_view_Permutation, elem_of_map_to_list. Qed.

Lemma sorted_view_NoDup_prices side b : NoDup (sorted_view side b).*1.
Proof. rewrite sorted_view_Permutation. apply NoDup_fst_map_to_list. Qed.

Lemma sorted_view_empty side b : get_side side b = ∅ → sorted_view side b = [].
Proof.
  intros Hm. apply Permutation_nil_r.
  by rewrite sorted_view_Permutation, Hm, map_to_list_empty.
Qed.

Lemma sorted_view_Forall_size (P : Qc → Prop) side b :
  map_Forall (λ _ s, P s) (get_side side b) →
  Forall (λ lv : Level, P lv.2) (sorted_view side b).
Proof.
  intros Hm. apply Forall_forall. intros [p s] Hin.
  apply elem_of_sorted_view in Hin. by apply (Hm p s).
Qed.

Lemma qsum_sorted_view side b :
  qsum (sorted_view side b).*2 = depth (get_side side b).
Proof. unfold depth. apply qsum_Permutation. by rewrite sorted_view_Permutation. Qed.

(** A list sorted by [≤] on prices whose prices are pairwise distinct is
    sorted by [<]. *)
Lemma StronglySorted_asc_strict (l : list Level) :
  StronglySorted price_asc l → NoDup l.*1 → StronglySorted price_lt l.
Proof.
  induction 1 as [|x l _ IH Hx]; intros Hnd; [constructor|].
  apply NoDup_cons in Hnd as [Hnotin Hnd].
  constructor; [by apply IH|].
  apply Forall_forall. intros y Hy.
  rewrite Forall_forall in Hx. specialize (Hx y Hy).
  unfold price_asc in Hx. unfold price_lt.
  apply Qcle_lt_or_eq in Hx as [Hlt|Heq]; [done|].
  destruct Hnotin. rewrite Heq. by apply list_elem_of_fmap_2.
Qed.

Lemma StronglySorted_desc_strict (l : list Level) :
  StronglySorted price_desc l → NoDup l.*1 → StronglySorted price_gt l.
Proof.
  induction 1 as [|x l _ IH Hx]; intros Hnd; [constructor|].
  apply NoDup_cons in Hnd as [Hnotin Hnd].
  constructor; [by apply IH|].
  apply Forall_forall. intros y Hy.
  rewrite Forall_forall in Hx. specialize (Hx y Hy).
  unfold price_desc in Hx. unfold price_gt.
  apply Qcle_lt_or_eq in Hx as [Hlt|Heq]; [done|].
  destruct Hnotin. rewrite <- Heq. by apply list_elem_of_fmap_2.
Qed.

Lemma get_sorted_asks_ascending b : StronglySorted price_lt (get_sorted_asks b).
Proof.
  apply StronglySorted_asc_strict.
  - apply (StronglySorted_merge_sort price_asc).
  - apply (sorted_view_NoDup_prices Asks).
Qed.

Lemma get_sorted_bids_descending b : StronglySorted price_gt (get_sorted_bids b).
Proof.
  apply StronglySorted_desc_strict.
  - apply (StronglySorted_merge_sort price_desc).
  - apply (sorted_view_NoDup_prices Bids).
Qed.

(** ** The walk over the levels *)

Section walk.
Implicit Types (l : list Level) (w : Walk).

Lemma walk_nil w : walk [] w = w.
Proof. reflexivity. Qed.

Lemma walk_cons lv l w :
  walk (lv :: l) w
  = if decide (remaining_qty (walk_step lv w) ≤ 0) then walk_step lv w
    else walk l (walk_step lv w).
Proof. reflexivity. Qed.

(** Each step moves the traded quantity from [remaining_qty] to
    [executed_qty]: their sum never changes. *)
Lemma walk_step_conserves lv w :
  executed_qty (walk_step lv w) + remaining_qty (walk_step lv w)
  = executed_qty w + remaining_qty w.
Proof. destruct lv as [price size]. simpl. qc_lra. Qed.

Lemma walk_conserves l w :
  executed_qty (walk l w) + remaining_qty (walk l w)
  = executed_qty w + remaining_qty w.
Proof.
  revert w. induction l as [|lv l IH]; intros w; [done|].
  rewrite walk_cons. case_decide.
  - apply walk_step_conserves.
  - by rewrite IH, walk_step_conserves.
Qed.

(** A step never takes more than what remains. *)
Lemma walk_step_remaining_nonneg lv w : 0 ≤ remaining_qty (walk_step lv w).
Proof.
  destruct lv as [price size]. simpl.
  pose proof (py_min_le_l (remaining_qty w) size). qc_lra.
Qed.

Lemma walk_remaining_nonneg l w :
  0 ≤ remaining_qty w → 0 ≤ remaining_qty (walk l w).
Proof.
  revert w. induction l as [|lv l IH]; intros w Hw; [done|].
  rewrite walk_cons. case_decide; [|apply IH];
    apply walk_step_remaining_nonneg.
Qed.

Lemma walk_cons_remaining_nonneg lv l w : 0 ≤ remaining_qty (walk (lv :: l) w).
Proof.
  rewrite walk_cons. case_decide; [|apply walk_remaining_nonneg];
    apply walk_step_remaining_nonneg.
Qed.

(** With non-negative sizes the walk executes the smaller of what was
    asked and what rests in the view. *)
Lemma walk_executed l w :
  Forall (λ lv : Level, 0 ≤ lv.2) l → 0 < remaining_qty w →
  executed_qty (walk l w)
  = executed_qty w + py_min (remaining_qty w) (qsum l.*2).
Proof.
  intros Hl. revert w.
  induction Hl as [|[price size] l Hsize Hl IH]; intros w Hw.
  - simpl. unfold py_min. case_decide; qc_lra.
  - pose proof (qsum_nonneg l.*2) as Hrest.
    rewrite Forall_fmap in Hrest. specialize (Hrest Hl).
    rewrite walk_cons, fmap_cons, qsum_cons. simpl in Hsize.
    case_decide as Hbreak.
    + simpl in *. unfold py_min in *. repeat case_decide; qc_lra.
    + rewrite IH.
      * simpl in *. unfold py_min in *. repeat case_decide; qc_lra.
      * simpl in *. by apply Qcnot_le_lt.
Qed.

(** With non-negative sizes, what the walk consumes costs at least
    [floor] per unit when no price of the view is below [floor]. *)
Lemma walk_cost_lower_bound (floor : Qc) l w :
  Forall (λ lv : Level, floor ≤ lv.1 ∧ 0 ≤ lv.2) l → 0 ≤ remaining_qty w →
  total_cost_acc w + floor * (executed_qty (walk l w) - executed_qty w)
  ≤ total_cost_acc (walk l w).
Proof.
  intros Hl. revert w.
  induction Hl as [|[price size] l [Hprice Hsize] Hl IH]; intros w Hw.
  - simpl. qc_lra.
  - simpl in Hprice, Hsize.
    assert (0 ≤ py_min (remaining_qty w) size) as Htrade
      by by apply py_min_glb.
    assert (total_cost_acc w
              + floor * (executed_qty (walk_step (price, size) w) - executed_qty w)
            ≤ total_cost_acc (walk_step (price, size) w)) as Hstep.
    { simpl. set (t := py_min _ _) in *. clearbody t. qc_nra. }
    rewrite walk_cons. case_decide as Hbreak; [done|].
    specialize (IH (walk_step (price, size) w)
                   (walk_step_remaining_nonneg _ _)).
    set (w' := walk_step _ _) in *. clearbody w'. qc_lra.
Qed.

(** A request that is not positive executes nothing positive. *)
Lemma walk_init_executed_nonpos l quantity :
  quantity ≤ 0 → executed_qty (walk l (walk_init quantity)) ≤ 0.
Proof.
  intros Hq. destruct l as [|lv l]; [simpl; qc_lra|].
  pose proof (walk_cons_remaining_nonneg lv l (walk_init quantity)) as Hrem.
  pose proof (walk_conserves (lv :: l) (walk_init quantity)) as Hsum.
  simpl executed_qty in Hsum at 2. simpl remaining_qty in Hsum at 2.
  set (w := walk _ _) in *. clearbody w. qc_lra.
Qed.
End walk.

(** ** Indexing the view *)

Lemma index_nil {A} (i : Z) : Py.index (@nil A) i = Raise IndexError.
Proof.
  unfold Py.index. simpl. case_decide; [|done].
  repeat case_decide; lia.
Qed.

Lemma index_first {A} (x : A) (l : list A) : Py.index (x :: l) 0 = Ok x.
Proof.
  unfold Py.index. cbv zeta. rewrite length_cons.
  repeat case_decide; try lia. done.
Qed.

Lemma index_last {A} (l : list A) (x : A) :
  last l = Some x → Py.index l (-1) = Ok x.
Proof.
  intros Hlast. unfold Py.index.
  assert (length l ≠ 0%nat) as Hlen by (by destruct l).
  cbv zeta. repeat case_decide; try lia.
  rewrite last_lookup in Hlast.
  replace (Z.to_nat (Z.of_nat (length l) + -1)) with (pred (length l)) by lia.
  by rewrite Hlast.
Qed.

(** ** What [_simulate_trade] returns *)

Lemma walk_nil_not_executed quantity :
  ¬ 0 < executed_qty (walk [] (walk_init quantity)).
Proof. simpl. qc_lra. Qed.

(** [_simulate_trade] never raises and never writes to the simulator
    object: it returns [report_of] of the view of the consumed side. *)
Lemma simulate_trade_run quantity is_buy self :
  _simulate_trade quantity is_buy self
  = (Ok (report_of is_buy (sorted_view (consumed_side is_buy) (orderbook self))
           (taker_fee_rate self) quantity), self).
Proof.
  unfold _simulate_trade, report_of, Py.bind, Py.gets, Py.ret, Py.lift.
  replace (if is_buy then get_sorted_asks (orderbook self)
           else get_sorted_bids (orderbook self))
    with (sorted_view (consumed_side is_buy) (orderbook self))
    by by destruct is_buy.
  fold (walk_init quantity).
  set (book_side := sorted_view _ _).
  set (w := walk book_side (walk_init quantity)).
  assert (0 < executed_qty w →
          ∃ lv, (if is_buy then Py.index book_side 0
                 else Py.index book_side (-1)) = Ok lv
                ∧ baseline is_buy book_side = Some lv.1) as Hbest.
  { intros Hpos. subst w. destruct book_side as [|lv0 rest] eqn:Hview.
    - by destruct (walk_nil_not_executed quantity).
    - unfold baseline. destruct is_buy.
      + exists lv0. by rewrite index_first.
      + destruct (last (lv0 :: rest)) as [lv|] eqn:Hlast.
        * exists lv. by rewrite (index_last _ _ Hlast).
        * by apply last_None in Hlast. }
  unfold Py.div.
  destruct (decide (executed_qty w = 0)) as [Hz|Hnz];
    destruct (decide (0 < executed_qty w)) as [Hpos|Hneg]; simpl; try done.
  - by destruct (Qclt_not_eq _ _ Hpos).
  - by destruct (Hbest Hpos) as (lv & -> & ->).
Qed.

(** ** The level update through [update] *)

Lemma update_level_message side price size b :
  update (level_message side price size) b = apply_level side price size b.
Proof. by destruct side. Qed.

(** * Properties of the specification *)

(** ** OrderBook *)

(** C3, as the code has it: a level update with price 0 is treated like
    any other price.  With a size other than 0 it stores the level
    [0 ↦ size]; with size 0 it removes the level at price 0; every other
    price of that side and the whole other side are left as they were. *)
Theorem level_update_price_zero_is_stored side size b :
  let b' := apply_level side 0 size b in
  get_side side b' !! 0 = (if decide (size = 0) then None else Some size)
  ∧ (∀ p, p ≠ 0 → get_side side b' !! p = get_side side b !! p)
  ∧ (∀ side', side ≠ side' → get_side side' b' = get_side side' b).
Proof.
  simpl. split_and!.
  - by rewrite get_side_apply_level, update_side_lookup.
  - intros p Hp. by rewrite get_side_apply_level, update_side_lookup_ne.
  - intros side' Hside. by apply get_side_apply_level_other.
Qed.

Lemma level_update_price_zero_is_stored_witness :
  (qz 100 ≠ 0 ∧ Bids ≠ Asks)
  ∧ let b' := apply_level Bids 0 (qz 5) two_bids in
    get_side Bids b' !! 0 = Some (qz 5)
    ∧ get_side Bids b' !! qz 100 = get_side Bids two_bids !! qz 100
    ∧ get_side Asks b' = get_side Asks two_bids.
Proof.
  assert (qz 100 ≠ 0) as Hprice by compute_done.
  assert (Bids ≠ Asks) as Hside by discriminate.
  split; [exact (conj Hprice Hside)|].
  destruct (level_update_price_zero_is_stored Bids (qz 5) two_bids)
    as (Hzero & Hothers & Hframe).
  exact (conj Hzero (conj (Hothers (qz 100) Hprice) (Hframe Asks Hside))).
Defined.

(** C3 fails on the code: on a fresh book, the bid update with price 0 and
    size 1 changes the book, and the bid view then holds the level
    [(0, 1)]. *)
Lemma level_update_price_zero_inserts :
  apply_level Bids 0 1 OrderBook_init ≠ OrderBook_init
  ∧ update (level_message Bids 0 1) OrderBook_init ≠ OrderBook_init
  ∧ bids (apply_level Bids 0 1 OrderBook_init) !! 0 = Some 1
  ∧ get_sorted_bids (apply_level Bids 0 1 OrderBook_init) = [(0, 1)].
Proof.
  assert (bids (apply_level Bids 0 1 OrderBook_init) !! 0 = Some 1) as Hin.
  { change (get_side Bids (apply_level Bids 0 1 OrderBook_init) !! 0 = Some 1).
    rewrite get_side_apply_level, update_side_lookup. by rewrite decide_False. }
  assert (apply_level Bids 0 1 OrderBook_init ≠ OrderBook_init) as Hne.
  { intros Heq. rewrite Heq in Hin. simpl in Hin.
    by rewrite lookup_empty in Hin. }
  split_and!; [done| by rewrite update_level_message |done|].
  unfold get_sorted_bids. simpl.
  rewrite update_side_nonzero by done.
  by rewrite insert_empty, map_to_list_singleton.
Qed.

(** C5: after any sequence of [update] calls on a fresh book whose levels
    all have price > 0 and size >= 0, neither sorted view holds a level
    with size <= 0 or a price twice; the bid view is strictly descending
    and the ask view strictly ascending by price. *)
Theorem sorted_views_after_updates (msgs : list Data) :
  Forall data_in_range msgs →
  let b := run_updates msgs OrderBook_init in
  (Forall (λ lv : Level, 0 < lv.2) (get_sorted_bids b)
   ∧ NoDup (get_sorted_bids b).*1
   ∧ StronglySorted price_gt (get_sorted_bids b))
  ∧ (Forall (λ lv : Level, 0 < lv.2) (get_sorted_asks b)
     ∧ NoDup (get_sorted_asks b).*1
     ∧ StronglySorted price_lt (get_sorted_asks b)).
Proof.
  intros Hmsgs b.
  assert (book_positive b) as [Hbids Hasks]
    by by apply run_updates_positive, book_positive_init.
  split; split_and!.
  - by apply (sorted_view_Forall_size (λ s, 0 < s) Bids).
  - apply (sorted_view_NoDup_prices Bids).
  - apply get_sorted_bids_descending.
  - by apply (sorted_view_Forall_size (λ s, 0 < s) Asks).
  - apply (sorted_view_NoDup_prices Asks).
  - apply get_sorted_asks_ascending.
Qed.

Lemma sorted_views_after_updates_witness :
  Forall data_in_range example_feed
  ∧ let b := run_updates example_feed OrderBook_init in
    (Forall (λ lv : Level, 0 < lv.2) (get_sorted_bids b)
     ∧ NoDup (get_sorted_bids b).*1
     ∧ StronglySorted price_gt (get_sorted_bids b))
    ∧ (Forall (λ lv : Level, 0 < lv.2) (get_sorted_asks b)
       ∧ NoDup (get_sorted_asks b).*1
       ∧ StronglySorted price_lt (get_sorted_asks b)).
Proof.
  assert (Forall data_in_range example_feed) as Hfeed by compute_done.
  split; [exact Hfeed|].
  exact (sorted_views_after_updates example_feed Hfeed).
Defined.

(** C7: the same level update applied twice in succession leaves the book
    as applying it once does, for every book, side, price and size (so in
    particular for price > 0 and size >= 0); and with size 0 for a price
    that is absent the book is left as it was. *)
Theorem level_update_idempotent side price size b :
  apply_level side price size (apply_level side price size b)
  = apply_level side price size b
  ∧ (get_side side b !! price = None → apply_level side price 0 b = b).
Proof.
  split; [apply apply_level_idem|].
  intros Habsent. unfold apply_level.
  rewrite update_side_absent by done. by destruct side, b.
Qed.

Lemma level_update_idempotent_witness :
  get_side Asks two_bids !! qz 7 = None
  ∧ apply_level Asks (qz 7) 0 (apply_level Asks (qz 7) 0 two_bids)
    = apply_level Asks (qz 7) 0 two_bids
  ∧ apply_level Asks (qz 7) 0 two_bids = two_bids.
Proof.
  assert (get_side Asks two_bids !! qz 7 = None) as Habsent by compute_done.
  split; [exact Habsent|].
  split.
  - exact (proj1 (level_update_idempotent Asks (qz 7) 0 two_bids)).
  - exact (proj2 (level_update_idempotent Asks (qz 7) 0 two_bids) Habsent).
Defined.

(** C9: a level update with a negative size stores the level with that
    size (only size 0 removes, nothing checks the sign), so the sorted
    view of that side then holds a level with size < 0. *)
Theorem level_update_negative_size_is_stored side price size b :
  size < 0 →
  let b' := apply_level side price size b in
  get_side side b' !! price = Some size
  ∧ (price, size) ∈ sorted_view side b'
  ∧ Exists (λ lv : Level, lv.2 < 0) (sorted_view side b').
Proof.
  intros Hneg b'.
  assert (get_side side b' !! price = Some size) as Hin.
  { subst b'. rewrite get_side_apply_level, update_side_lookup.
    rewrite decide_False; [done|]. by apply Qclt_not_eq. }
  assert ((price, size) ∈ sorted_view side b') as Hview
    by by apply elem_of_sorted_view.
  split_and!; [done..|].
  apply Exists_exists. by exists (price, size).
Qed.

Lemma level_update_negative_size_is_stored_witness :
  qz (-1) < 0
  ∧ let b' := apply_level Bids (qz 100) (qz (-1)) two_bids in
    get_side Bids b' !! qz 100 = Some (qz (-1))
    ∧ (qz 100, qz (-1)) ∈ sorted_view Bids b'
    ∧ Exists (λ lv : Level, lv.2 < 0) (sorted_view Bids b').
Proof.
  assert (qz (-1) < 0) as Hneg by compute_done.
  split; [exact Hneg|].
  exact (level_update_negative_size_is_stored Bids (qz 100) (qz (-1)) two_bids Hneg).
Defined.

(** ** TradeSimulator *)

Lemma report_of_nil is_buy rate quantity :
  report_of is_buy [] rate quantity = empty_report quantity.
Proof.
  unfold report_of, empty_report. simpl. by rewrite Qcmult_0_l.
Qed.

(** C4: with a quantity > 0, a buy on a book without asks, and a sell on a
    book without bids, returns the report with executedQuantity,
    averagePrice, totalCost, slippage and fee all 0 and remainingQuantity
    the requested quantity, and raises nothing. *)
Theorem simulate_on_empty_side quantity is_buy self :
  0 < quantity →
  get_side (consumed_side is_buy) (orderbook self) = ∅ →
  _simulate_trade quantity is_buy self = (Ok (empty_report quantity), self).
Proof.
  intros _ Hempty.
  by rewrite simulate_trade_run, sorted_view_empty, report_of_nil.
Qed.

Lemma simulate_on_empty_side_witness :
  (0 < qz 5 ∧ asks two_bids = ∅)
  ∧ simulate_buy (qz 5) (simulator_of two_bids)
    = (Ok (empty_report (qz 5)), simulator_of two_bids).
Proof.
  assert (0 < qz 5) as Hq by compute_done.
  assert (asks two_bids = ∅) as Hempty by reflexivity.
  split; [exact (conj Hq Hempty)|].
  exact (simulate_on_empty_side (qz 5) true (simulator_of two_bids) Hq Hempty).
Defined.

(** C8: a simulate call leaves the simulator object, hence the bid and ask
    dicts of its book, as they were, and its report is a function of the
    book, the direction, the quantity and the taker fee rate alone. *)
Theorem simulate_does_not_mutate :
  ∃ report : OrderBook → bool → Qc → Qc → FillReport,
    ∀ quantity is_buy self,
      let '(result, self') := _simulate_trade quantity is_buy self in
      result = Ok (report (orderbook self) is_buy quantity (taker_fee_rate self))
      ∧ self' = self
      ∧ bids (orderbook self') = bids (orderbook self)
      ∧ asks (orderbook self') = asks (orderbook self).
Proof.
  exists (λ b is_buy quantity rate,
            report_of is_buy (sorted_view (consumed_side is_buy) b) rate quantity).
  intros quantity is_buy self. by rewrite simulate_trade_run.
Qed.

(** The fields of the report, read off [simulate_trade_run]. *)
Lemma simulate_trade_conserves quantity is_buy self :
  ∃ r, _simulate_trade quantity is_buy self = (Ok r, self)
       ∧ executed_quantity r + remaining_quantity r = quantity.
Proof.
  eexists. split; [apply simulate_trade_run|].
  unfold report_of. simpl.
  rewrite walk_conserves. simpl. qc_lra.
Qed.

(** The price the code subtracts: the first level of the view for a buy,
    the last level of the view for a sell. *)
Lemma slippage_baseline quantity is_buy self r :
  _simulate_trade quantity is_buy self = (Ok r, self) →
  0 < executed_quantity r →
  ∃ lv, (if is_buy then head (get_sorted_asks (orderbook self))
         else last (get_sorted_bids (orderbook self))) = Some lv
        ∧ slippage r = average_price r - lv.1.
Proof.
  rewrite simulate_trade_run. intros [= <-]. unfold report_of. simpl.
  intros Hpos. rewrite decide_True by done.
  set (book_side := sorted_view _ _) in *.
  assert (book_side ≠ []) as Hne.
  { intros Hnil. rewrite Hnil in Hpos.
    by destruct (walk_nil_not_executed quantity). }
  unfold baseline.
  replace (if is_buy then head (get_sorted_asks (orderbook self))
           else last (get_sorted_bids (orderbook self)))
    with (if is_buy then head book_side else last book_side)
    by by destruct is_buy.
  destruct (if is_buy then head book_side else last book_side)
    as [lv|] eqn:Hlv; [by exists lv|].
  destruct is_buy; [by destruct book_side|by apply last_None in Hlv].
Qed.

(** C1, on the code: with bids {100: 1.0, 99: 2.0}, [simulate_sell(2.0)]
    executes 2.0 for 199 at the average price 99.5, and reports the
    slippage 0.5: the average price minus 99, the price of the last level
    of the bid view, where the first level (the best bid) is 100 and the
    average price minus the best bid is -0.5. *)
Theorem sell_slippage_on_two_bids :
  get_sorted_bids two_bids = [(qz 100, qz 1); (qz 99, qz 2)]
  ∧ ∃ r, simulate_sell (qz 2) (simulator_of two_bids)
         = (Ok r, simulator_of two_bids)
       ∧ executed_quantity r = qz 2
       ∧ total_cost r = qz 199
       ∧ average_price r = qfrac 199 2
       ∧ slippage r = qfrac 1 2
       ∧ average_price r - qz 100 = qfrac (-1) 2
       ∧ slippage r ≠ average_price r - qz 100.
Proof.
  split; [compute_done|].
  eexists. split; [apply simulate_trade_run|].
  split_and!; compute_done.
Qed.

(** C2 fails on the code: a buy of -1 on asks {100: 1.0, 101: 2.0} and a
    sell of 0 on bids {100: 1.0, 99: 2.0} are not rejected; each returns a
    report. *)
Lemma nonpositive_quantity_not_rejected :
  qz (-1) ≤ 0
  ∧ ¬ rejects (simulate_buy (qz (-1))) (simulator_of two_asks)
  ∧ (simulate_buy (qz (-1)) (simulator_of two_asks)).1
    = Ok {| executed_quantity := qz (-1); average_price := qz 100;
            total_cost := qz (-100); slippage := 0;
            fee := qfrac (-3) 50; remaining_quantity := 0 |}
  ∧ ¬ rejects (simulate_sell 0) (simulator_of two_bids)
  ∧ (simulate_sell 0 (simulator_of two_bids)).1 = Ok (empty_report 0).
Proof.
  split; [compute_done|].
  unfold rejects, simulate_buy, simulate_sell.
  rewrite !simulate_trade_run. simpl.
  split_and!; [by intros [e ?]|compute_done|by intros [e ?]|compute_done].
Qed.

(** In exact arithmetic a simulate call with a quantity <= 0 returns a
    report with slippage 0, an executed quantity <= 0, and
    executedQuantity + remainingQuantity equal to the quantity.  (The
    binary64 code rounds: see [nonpositive_quantity_is_simulated].) *)
Theorem nonpositive_quantity_returns_report quantity is_buy self :
  quantity ≤ 0 →
  ¬ rejects (_simulate_trade quantity is_buy) self
  ∧ ∃ r, _simulate_trade quantity is_buy self = (Ok r, self)
       ∧ slippage r = 0
       ∧ executed_quantity r ≤ 0
       ∧ executed_quantity r + remaining_quantity r = quantity.
Proof.
  intros Hq.
  destruct (simulate_trade_conserves quantity is_buy self) as (r & Hrun & Hsum).
  split.
  - intros [e He]. by rewrite Hrun in He.
  - exists r. split; [done|].
    rewrite simulate_trade_run in Hrun. injection Hrun as <-.
    pose proof (walk_init_executed_nonpos
                  (sorted_view (consumed_side is_buy) (orderbook self))
                  quantity Hq) as Hexec.
    split_and!; [|done..].
    unfold report_of. simpl. rewrite decide_False; [done|].
    by apply Qcle_not_lt.
Qed.

Lemma nonpositive_quantity_returns_report_witness :
  qz (-1) ≤ 0
  ∧ ¬ rejects (_simulate_trade (qz (-1)) true) (simulator_of two_asks)
  ∧ ∃ r, _simulate_trade (qz (-1)) true (simulator_of two_asks)
         = (Ok r, simulator_of two_asks)
       ∧ slippage r = 0
       ∧ executed_quantity r ≤ 0
       ∧ executed_quantity r + remaining_quantity r = qz (-1).
Proof.
  assert (qz (-1) ≤ 0) as Hq by compute_done.
  split; [exact Hq|].
  exact (nonpositive_quantity_returns_report (qz (-1)) true
           (simulator_of two_asks) Hq).
Defined.

(** With asks {100: 3.0, 101: -2.0} the total resting size is 1, and a
    buy of 2 executes 2, not min(2, 1) = 1 (all values exact). *)
Lemma executed_exceeds_depth_with_negative_size :
  0 < qz 2
  ∧ depth (asks negative_ask) = qz 1
  ∧ py_min (qz 2) (depth (asks negative_ask)) = qz 1
  ∧ ∃ r, simulate_buy (qz 2) (simulator_of negative_ask)
         = (Ok r, simulator_of negative_ask)
       ∧ executed_quantity r = qz 2
       ∧ executed_quantity r ≠ py_min (qz 2) (depth (asks negative_ask)).
Proof.
  split_and!; [compute_done..|].
  eexists. split; [apply simulate_trade_run|].
  split; compute_done.
Qed.

(** In exact arithmetic: for every book, both directions and every
    quantity > 0 the report satisfies executedQuantity + remainingQuantity
    = quantity with remainingQuantity >= 0; and when no level of the
    consumed side has a negative size, executedQuantity is the minimum of
    the quantity and the total resting size of that side.  (The binary64
    code satisfies these equations only up to rounding: see
    [fill_equations_fail] and [fill_outcome].) *)
Theorem fill_accounting quantity is_buy self :
  0 < quantity →
  ∃ r, _simulate_trade quantity is_buy self = (Ok r, self)
     ∧ executed_quantity r + remaining_quantity r = quantity
     ∧ 0 ≤ remaining_quantity r
     ∧ (sizes_nonneg (get_side (consumed_side is_buy) (orderbook self)) →
        let total := depth (get_side (consumed_side is_buy) (orderbook self)) in
        executed_quantity r = py_min quantity total
        ∧ (quantity ≤ total →
           executed_quantity r = quantity ∧ remaining_quantity r = 0)
        ∧ (total < quantity →
           executed_quantity r < quantity ∧ 0 < remaining_quantity r)).
Proof.
  intros Hq.
  destruct (simulate_trade_conserves quantity is_buy self) as (r & Hrun & Hsum).
  exists r. split; [done|]. split; [done|].
  rewrite simulate_trade_run in Hrun. injection Hrun as <-.
  unfold report_of in *. simpl in *.
  set (side := consumed_side is_buy) in *.
  split.
  { apply walk_remaining_nonneg. simpl. by apply Qclt_le_weak. }
  intros Hnonneg. set (total := depth _).
  assert (executed_qty (walk (sorted_view side (orderbook self))
                             (walk_init quantity))
          = py_min quantity total) as Hexec.
  { rewrite walk_executed.
    - simpl. rewrite qsum_sorted_view. fold total. qc_lra.
    - by apply (sorted_view_Forall_size (λ s, 0 ≤ s)).
    - done. }
  rewrite Hexec in *.
  split; [done|].
  unfold py_min in *. case_decide; split; intros; split; qc_lra.
Qed.

(** The partial fill of the specification: asks {100: 1.0} and a buy of 5
    give executedQuantity 1, remainingQuantity 4 and totalCost 100. *)
Lemma fill_accounting_witness :
  (0 < qz 5 ∧ sizes_nonneg (asks one_ask) ∧ depth (asks one_ask) < qz 5)
  ∧ ∃ r, simulate_buy (qz 5) (simulator_of one_ask)
         = (Ok r, simulator_of one_ask)
       ∧ executed_quantity r + remaining_quantity r = qz 5
       ∧ 0 ≤ remaining_quantity r
       ∧ executed_quantity r = py_min (qz 5) (depth (asks one_ask))
       ∧ (executed_quantity r < qz 5 ∧ 0 < remaining_quantity r)
       ∧ (executed_quantity r = qz 1
          ∧ remaining_quantity r = qz 4
          ∧ total_cost r = qz 100).
Proof.
  assert (0 < qz 5) as Hq by compute_done.
  assert (sizes_nonneg (asks one_ask)) as Hnonneg by compute_done.
  assert (depth (asks one_ask) < qz 5) as Hdepth by compute_done.
  split; [exact (conj Hq (conj Hnonneg Hdepth))|].
  destruct (fill_accounting (qz 5) true (simulator_of one_ask) Hq)
    as (r & Hrun & Hsum & Hrem & Hmin).
  destruct (Hmin Hnonneg) as (Hexec & _ & Hpartial).
  assert (executed_quantity r = qz 1 ∧ remaining_quantity r = qz 4
          ∧ total_cost r = qz 100) as Hvalues.
  { pose proof Hrun as Hrun'. rewrite simulate_trade_run in Hrun'.
    injection Hrun' as <-. split_and!; compute_done. }
  exists r.
  exact (conj Hrun (conj Hsum (conj Hrem (conj Hexec
           (conj (Hpartial Hdepth) Hvalues))))).
Defined.

(** The full fill of the specification: asks {100: 1.0, 101: 2.0} and a
    buy of 1.5 give executedQuantity 1.5, totalCost 150.5, averagePrice
    301/3, slippage 1/3, fee 150.5 × 0.0006 and remainingQuantity 0. *)
Example full_fill_on_two_asks :
  ∃ r, simulate_buy (qfrac 3 2) (simulator_of two_asks)
       = (Ok r, simulator_of two_asks)
     ∧ executed_quantity r = qfrac 3 2
     ∧ total_cost r = qfrac 301 2
     ∧ average_price r = qfrac 301 3
     ∧ slippage r = qfrac 1 3
     ∧ fee r = qfrac 301 2 * TAKER_FEE_RATE
     ∧ remaining_quantity r = 0.
Proof.
  eexists. split; [apply simulate_trade_run|].
  split_and!; compute_done.
Qed.

(** No price of the ascending ask view is below the price of its first
    level. *)
Lemma get_sorted_asks_head_least b best :
  head (get_sorted_asks b) = Some best →
  Forall (λ lv : Level, best.1 ≤ lv.1) (get_sorted_asks b).
Proof.
  intros Hhead. pose proof (get_sorted_asks_ascending b) as Hsorted.
  destruct (get_sorted_asks b) as [|lv0 rest]; [done|].
  injection Hhead as ->.
  apply StronglySorted_inv in Hsorted as [_ Hrest].
  constructor; [apply Qcle_refl|].
  eapply Forall_impl; [exact Hrest|].
  intros lv Hlt. by apply Qclt_le_weak.
Qed.

(** A quotient is at least [floor] when the dividend is at least [floor]
    times the positive divisor. *)
Lemma Qcdiv_lower_bound (floor total executed : Qc) :
  0 < executed → floor * executed ≤ total → floor ≤ total / executed.
Proof.
  intros Hpos Hle.
  assert (executed * (total / executed) = total) as Hdiv.
  { apply Qcmult_div_r. by apply not_eq_sym, Qclt_not_eq. }
  apply (Qcmult_lt_0_le_reg_r _ _ executed); [done|].
  rewrite (Qcmult_comm (total / executed)), Hdiv. done.
Qed.

(** In exact arithmetic: on a book whose ask levels all have a positive
    size, a buy of a quantity > 0 that executes a positive quantity reports
    a slippage >= 0: the baseline is the first (lowest) ask of the view,
    and the average price is at least that price.  (The binary64 code
    rounds the average: see [buy_slippage_negative_by_rounding].) *)
Theorem buy_slippage_nonneg quantity self :
  sizes_positive (asks (orderbook self)) →
  0 < quantity →
  ∃ r, simulate_buy quantity self = (Ok r, self)
     ∧ (0 < executed_quantity r →
        ∃ best, head (get_sorted_asks (orderbook self)) = Some best
              ∧ slippage r = average_price r - best.1
              ∧ best.1 ≤ average_price r
              ∧ 0 ≤ slippage r).
Proof.
  intros Hsizes Hq. unfold simulate_buy.
  destruct (simulate_trade_conserves quantity true self) as (r & Hrun & _).
  exists r. split; [done|]. intros Hpos.
  destruct (slippage_baseline quantity true self r Hrun Hpos)
    as (best & Hhead & Hslip).
  exists best. split; [done|]. split; [done|].
  assert (best.1 ≤ average_price r) as Hbest; [|split; [done|qc_lra]].
  rewrite simulate_trade_run in Hrun. injection Hrun as <-.
  unfold report_of in *. simpl in *.
  set (w := walk (get_sorted_asks (orderbook self)) (walk_init quantity)) in *.
  rewrite decide_False by (by apply not_eq_sym, Qclt_not_eq).
  apply Qcdiv_lower_bound; [done|].
  pose proof (walk_cost_lower_bound best.1 (get_sorted_asks (orderbook self))
                (walk_init quantity)) as Hcost.
  fold w in Hcost. simpl in Hcost.
  assert (0 + best.1 * (executed_qty w - 0) ≤ total_cost_acc w) as Hle.
  { apply Hcost; [|by apply Qclt_le_weak].
    apply Forall_and. split; [by apply get_sorted_asks_head_least|].
    apply (sorted_view_Forall_size (λ s, 0 ≤ s) Asks).
    intros p s Hps. apply Qclt_le_weak. by apply (Hsizes p s). }
  clearbody w. qc_lra.
Qed.

Lemma buy_slippage_nonneg_witness :
  (sizes_positive (asks two_asks) ∧ 0 < qfrac 3 2)
  ∧ ∃ r, simulate_buy (qfrac 3 2) (simulator_of two_asks)
         = (Ok r, simulator_of two_asks)
       ∧ 0 < executed_quantity r
       ∧ 0 ≤ slippage r.
Proof.
  assert (sizes_positive (asks two_asks)) as Hsizes by compute_done.
  assert (0 < qfrac 3 2) as Hq by compute_done.
  split; [exact (conj Hsizes Hq)|].
  destruct (buy_slippage_nonneg (qfrac 3 2) (simulator_of two_asks) Hsizes Hq)
    as (r & Hrun & Hslip).
  assert (0 < executed_quantity r) as Hpos.
  { unfold simulate_buy in Hrun. rewrite simulate_trade_run in Hrun.
    injection Hrun as <-. compute_done. }
  destruct (Hslip Hpos) as (best & _ & _ & _ & Hnonneg).
  exists r. exact (conj Hrun (conj Hpos Hnonneg)).
Defined.

(** * Further properties of the code *)

(** ** [OrderBook.update]: a message as a whole *)

Section update_dict.
Implicit Types (price size p s : Qc) (m : gmap Qc Qc) (levels : list Level).

(** A later level for a price overrides an earlier one. *)
Lemma update_side_absorb p s s' m :
  update_side p s (update_side p s' m) = update_side p s m.
Proof.
  apply map_eq. intros k. destruct (decide (k = p)) as [->|Hk].
  - by rewrite !update_side_lookup.
  - by rewrite !update_side_lookup_ne.
Qed.

Lemma update_side_comm p p' s s' m :
  p ≠ p' →
  update_side p s (update_side p' s' m) = update_side p' s' (update_side p s m).
Proof.
  intros Hne. apply map_eq. intros k.
  destruct (decide (k = p)) as [->|Hk].
  - by rewrite update_side_lookup, update_side_lookup_ne, update_side_lookup.
  - rewrite (update_side_lookup_ne p) by done.
    destruct (decide (k = p')) as [->|Hk'].
    + by rewrite !update_side_lookup.
    + by rewrite !update_side_lookup_ne.
Qed.

Lemma update_dict_nil m : update_dict [] m = m.
Proof. reflexivity. Qed.

Lemma update_dict_cons p s levels m :
  update_dict ((p, s) :: levels) m = update_dict levels (update_side p s m).
Proof. reflexivity. Qed.

Lemma update_dict_app levels1 levels2 m :
  update_dict (levels1 ++ levels2) m = update_dict levels2 (update_dict levels1 m).
Proof. apply foldl_app. Qed.

Lemma update_dict_lookup_notin levels m p :
  p ∉ levels.*1 → update_dict levels m !! p = m !! p.
Proof.
  revert m. induction levels as [|[p' s'] levels IH]; intros m Hp; [done|].
  rewrite fmap_cons, not_elem_of_cons in Hp. destruct Hp as [Hne Hp].
  rewrite update_dict_cons, IH by done. by apply update_side_lookup_ne.
Qed.

(** A level written before and after a batch counts only after it. *)
Lemma update_dict_sandwich p s levels m :
  update_side p s (update_dict levels (update_side p s m))
  = update_side p s (update_dict levels m).
Proof.
  revert m. induction levels as [|[p' s'] levels IH]; intros m.
  - apply update_side_absorb.
  - rewrite !update_dict_cons. destruct (decide (p' = p)) as [->|Hne].
    + by rewrite update_side_absorb.
    + by rewrite update_side_comm, IH.
Qed.

Lemma update_dict_idem levels m :
  update_dict levels (update_dict levels m) = update_dict levels m.
Proof.
  revert m. induction levels as [|[p s] levels IH] using rev_ind; intros m; [done|].
  rewrite !update_dict_app. simpl.
  change (update_side p s (update_dict levels (update_side p s (update_dict levels m)))
          = update_side p s (update_dict levels m)).
  by rewrite update_dict_sandwich, IH.
Qed.

End update_dict.

Lemma get_side_update_levels side levels b :
  get_side side (update_levels side levels b) = update_dict levels (get_side side b).
Proof.
  unfold update_levels, update_dict. revert b.
  induction levels as [|lv levels IH]; intros b; [done|].
  simpl. by rewrite IH, get_side_apply_level.
Qed.

Lemma get_side_update_levels_other side side' levels b :
  side ≠ side' → get_side side' (update_levels side levels b) = get_side side' b.
Proof.
  intros Hne. unfold update_levels. revert b.
  induction levels as [|lv levels IH]; intros b; [done|].
  simpl. by rewrite IH, get_side_apply_level_other.
Qed.

Lemma get_side_update side data b :
  get_side side (update data b) = update_dict (data_get side data) (get_side side b).
Proof.
  rewrite update_unfold. destruct side.
  - by rewrite (get_side_update_levels_other Asks Bids), get_side_update_levels.
  - by rewrite get_side_update_levels, (get_side_update_levels_other Bids Asks).
Qed.

Lemma OrderBook_eq b1 b2 : bids b1 = bids b2 → asks b1 = asks b2 → b1 = b2.
Proof. destruct b1, b2. simpl. by intros -> ->. Qed.

(** X1: [update] treats the two sides separately: the bids after the call
    are the bids before it with the levels of [data["bids"]] applied in
    order, and the asks likewise with [data["asks"]]; neither depends on
    the other side of the book or of the message. *)
Theorem update_sides_independent data b :
  bids (update data b) = update_dict (data_get Bids data) (bids b)
  ∧ asks (update data b) = update_dict (data_get Asks data) (asks b).
Proof.
  split.
  - apply (get_side_update Bids).
  - apply (get_side_update Asks).
Qed.

(** X2: within one message the last level given for a price decides: after
    [update], that price holds the size of its last level, and is absent
    when that size is 0, whatever the book held and whatever earlier levels
    of the message said. *)
Theorem update_last_level_wins side data b (l1 l2 : list Level) (p s : Qc) :
  data_get side data = l1 ++ (p, s) :: l2 →
  p ∉ l2.*1 →
  get_side side (update data b) !! p = if decide (s = 0) then None else Some s.
Proof.
  intros Hdata Hlast.
  rewrite get_side_update, Hdata, update_dict_app, update_dict_cons.
  rewrite update_dict_lookup_notin by done.
  apply update_side_lookup.
Qed.

Lemma update_last_level_wins_witness :
  (data_get Bids {| data_bids := Some [(qz 100, qz 5); (qz 99, qz 1); (qz 100, 0)];
                    data_asks := None |}
   = [(qz 100, qz 5); (qz 99, qz 1)] ++ (qz 100, 0) :: []
   ∧ qz 100 ∉ ([] : list Level).*1)
  ∧ get_side Bids
      (update {| data_bids := Some [(qz 100, qz 5); (qz 99, qz 1); (qz 100, 0)];
                 data_asks := None |} two_bids) !! qz 100 = None.
Proof.
  assert (qz 100 ∉ ([] : list Level).*1) as Hlast by apply not_elem_of_nil.
  split; [exact (conj eq_refl Hlast)|].
  exact (update_last_level_wins Bids
           {| data_bids := Some [(qz 100, qz 5); (qz 99, qz 1); (qz 100, 0)];
              data_asks := None |}
           two_bids [(qz 100, qz 5); (qz 99, qz 1)] [] (qz 100) 0 eq_refl Hlast).
Defined.

(** X3: [update] leaves every price alone that the message does not name
    for that side: its entry, present or absent, is as before. *)
Theorem update_leaves_other_prices side data b (p : Qc) :
  p ∉ (data_get side data).*1 →
  get_side side (update data b) !! p = get_side side b !! p.
Proof. intros Hp. by rewrite get_side_update, update_dict_lookup_notin. Qed.

Lemma update_leaves_other_prices_witness :
  (qz 99 ∉ (data_get Bids (level_message Bids (qz 100) 0)).*1)
  ∧ get_side Bids (update (level_message Bids (qz 100) 0) two_bids) !! qz 99
    = get_side Bids two_bids !! qz 99.
Proof.
  assert (qz 99 ∉ (data_get Bids (level_message Bids (qz 100) 0)).*1) as Hp
    by compute_done.
  split; [exact Hp|].
  exact (update_leaves_other_prices Bids (level_message Bids (qz 100) 0)
           two_bids (qz 99) Hp).
Defined.

(** X4: two level updates for different sides or different prices can be
    applied in either order. *)
Theorem level_updates_commute side side' (p p' s s' : Qc) b :
  side ≠ side' ∨ p ≠ p' →
  apply_level side p s (apply_level side' p' s' b)
  = apply_level side' p' s' (apply_level side p s b).
Proof.
  intros Hne. unfold apply_level.
  destruct side, side'; simpl; try done;
    destruct Hne as [Hside|Hprice]; try done;
    by rewrite update_side_comm.
Qed.

Lemma level_updates_commute_witness :
  (Bids ≠ Bids ∨ qz 100 ≠ qz 99)
  ∧ apply_level Bids (qz 100) 0 (apply_level Bids (qz 99) (qz 7) two_bids)
    = apply_level Bids (qz 99) (qz 7) (apply_level Bids (qz 100) 0 two_bids).
Proof.
  assert (qz 100 ≠ qz 99) as Hne by compute_done.
  split; [exact (or_intror Hne)|].
  exact (level_updates_commute Bids Bids (qz 100) (qz 99) 0 (qz 7) two_bids
           (or_intror Hne)).
Defined.

(** X5: for a message whose levels all have a price > 0 and a size >= 0
    (so every price and size is a number, not NaN), applying the message
    twice leaves the book as applying it once does, also when the message
    names a price several times. *)
Theorem update_idempotent data b :
  data_in_range data → update data (update data b) = update data b.
Proof.
  intros _. apply OrderBook_eq.
  - change (get_side Bids (update data (update data b))
            = get_side Bids (update data b)).
    rewrite !get_side_update. apply update_dict_idem.
  - change (get_side Asks (update data (update data b))
            = get_side Asks (update data b)).
    rewrite !get_side_update. apply update_dict_idem.
Qed.

Lemma update_idempotent_witness :
  data_in_range {| data_bids := Some [(qz 100, qz 5); (qz 99, qz 1); (qz 100, 0)];
                   data_asks := Some [(qz 101, qz 3)] |}
  ∧ update {| data_bids := Some [(qz 100, qz 5); (qz 99, qz 1); (qz 100, 0)];
              data_asks := Some [(qz 101, qz 3)] |}
      (update {| data_bids := Some [(qz 100, qz 5); (qz 99, qz 1); (qz 100, 0)];
                 data_asks := Some [(qz 101, qz 3)] |} two_bids)
    = update {| data_bids := Some [(qz 100, qz 5); (qz 99, qz 1); (qz 100, 0)];
                data_asks := Some [(qz 101, qz 3)] |} two_bids.
Proof.
  assert (data_in_range
            {| data_bids := Some [(qz 100, qz 5); (qz 99, qz 1); (qz 100, 0)];
               data_asks := Some [(qz 101, qz 3)] |}) as Hrange by compute_done.
  split; [exact Hrange|].
  exact (update_idempotent _ two_bids Hrange).
Defined.

(** X6: the sorted view after one level update, by cases: it holds the
    updated price with the new size unless that size is 0, it holds every
    level of another price that it held before, and nothing else; the view
    of the other side is as before. *)
Theorem sorted_view_after_level_update side (price size : Qc) b :
  (∀ p s, (p, s) ∈ sorted_view side (apply_level side price size b)
          ↔ (p = price ∧ s = size ∧ size ≠ 0)
            ∨ (p ≠ price ∧ (p, s) ∈ sorted_view side b))
  ∧ (∀ side', side ≠ side' →
       sorted_view side' (apply_level side price size b) = sorted_view side' b).
Proof.
  split.
  - intros p s. rewrite !elem_of_sorted_view, get_side_apply_level.
    destruct (decide (p = price)) as [->|Hp].
    + rewrite update_side_lookup. case_decide as Hz; split.
      * intros [=].
      * intros [(_ & _ & Hnz)|[Hne _]]; [by destruct Hnz|by destruct Hne].
      * intros [= <-]. by left.
      * intros [(_ & -> & _)|[Hne _]]; [done|by destruct Hne].
    + rewrite update_side_lookup_ne by done. split.
      * intros Hin. by right.
      * intros [(Heq & _)|[_ Hin]]; [by destruct Hp|done].
  - intros side' Hside.
    pose proof (get_side_apply_level_other side side' price size b Hside) as Hsame.
    destruct side'; unfold sorted_view, get_sorted_bids, get_sorted_asks;
      simpl in Hsame; by rewrite Hsame.
Qed.

Lemma sorted_view_after_level_update_witness :
  (qz 99 ≠ qz 100 ∧ (qz 99, qz 2) ∈ sorted_view Bids two_bids ∧ Bids ≠ Asks)
  ∧ (qz 99, qz 2) ∈ sorted_view Bids (apply_level Bids (qz 100) 0 two_bids)
  ∧ sorted_view Asks (apply_level Bids (qz 100) 0 two_bids)
    = sorted_view Asks two_bids.
Proof.
  assert (qz 99 ≠ qz 100) as Hne by compute_done.
  assert ((qz 99, qz 2) ∈ sorted_view Bids two_bids) as Hin by compute_done.
  assert (Bids ≠ Asks) as Hside by discriminate.
  split; [exact (conj Hne (conj Hin Hside))|].
  destruct (sorted_view_after_level_update Bids (qz 100) 0 two_bids)
    as [Hview Hother].
  exact (conj (proj2 (Hview (qz 99) (qz 2)) (or_intror (conj Hne Hin)))
              (Hother Asks Hside)).
Defined.

(** ** [get_sorted_bids] and [get_sorted_asks]: the best quotes *)

#[global] Instance price_lt_trans : Transitive price_lt.
Proof. intros x y z. unfold price_lt. apply Qclt_trans. Qed.

#[global] Instance price_gt_trans : Transitive price_gt.
Proof. intros x y z Hxy Hyz. unfold price_gt in *. by eapply Qclt_trans. Qed.









(** ** [update] and [_simulate_trade] together *)

(** X20: a level update on the side a trade does not consume leaves its
    report as it was: bids do not enter a buy, asks do not enter a sell. *)
Theorem other_side_update_keeps_report side (price size quantity : Qc) is_buy self :
  side ≠ consumed_side is_buy →
  (_simulate_trade quantity is_buy
     {| orderbook := apply_level side price size (orderbook self);
        taker_fee_rate := taker_fee_rate self |}).1
  = (_simulate_trade quantity is_buy self).1.
Proof.
  intros Hside. rewrite !simulate_trade_run. simpl.
  pose proof (get_side_apply_level_other side (consumed_side is_buy)
                price size (orderbook self) Hside) as Hsame.
  destruct is_buy; simpl in *;
    unfold get_sorted_asks, get_sorted_bids; by rewrite Hsame.
Qed.

Lemma other_side_update_keeps_report_witness :
  Bids ≠ consumed_side true
  ∧ (simulate_buy (qz 2)
       {| orderbook := apply_level Bids (qz 99) (qz 7) two_asks;
          taker_fee_rate := TAKER_FEE_RATE |}).1
    = (simulate_buy (qz 2) (simulator_of two_asks)).1.
Proof.
  assert (Bids ≠ consumed_side true) as Hside by discriminate.
  split; [exact Hside|].
  exact (other_side_update_keeps_report Bids (qz 99) (qz 7) (qz 2) true
           (simulator_of two_asks) Hside).
Defined.

(** ** [OrderBook.update] on the message as received *)

Section raw_update_facts.
Variable float : string → option Qc.

Lemma update_entries_converted side entries levels b :
  Forall2 (λ entry lv, parse_entry float entry = Some lv) entries levels →
  update_entries float side entries b = (Done, update_levels side levels b).
Proof.
  intros Hall. revert b.
  induction Hall as [|entry [price size] entries levels Hentry _ IH]; intros b;
    [done|].
  simpl. rewrite Hentry. apply IH.
Qed.

Lemma update_entries_stops side good bad rest levels b :
  Forall2 (λ entry lv, parse_entry float entry = Some lv) good levels →
  parse_entry float bad = None →
  update_entries float side (good ++ bad :: rest) b
  = (Failed ValueError, update_levels side levels b).
Proof.
  intros Hgood Hbad. revert b.
  induction Hgood as [|entry [price size] good levels Hentry _ IH]; intros b.
  - simpl. by rewrite Hbad.
  - simpl. rewrite Hentry. apply IH.
Qed.

Lemma update_entries_not_converted side entries b :
  parse_entries float entries = None →
  (update_entries float side entries b).1 = Failed ValueError.
Proof.
  unfold parse_entries. rewrite mapM_None. intros Hbad. revert b.
  induction Hbad as [entry entries Hentry|entry entries _ IH]; intros b; simpl.
  - by rewrite Hentry.
  - destruct (parse_entry float entry) as [[price size]|]; [apply IH|done].
Qed.

Lemma data_get_parsed side data levels :
  parse_entries float (raw_get side data) = Some levels →
  data_get side
    {| data_bids := raw_bids data ≫= parse_entries float;
       data_asks := raw_asks data ≫= parse_entries float |} = levels.
Proof.
  unfold raw_get, data_get.
  destruct side; simpl;
    [destruct (raw_bids data) as [entries|]|destruct (raw_asks data) as [entries|]];
    simpl; try (by intros ->); by intros [= <-].
Qed.

Lemma parse_entry_take entry :
  parse_entry float (take 2 entry) = parse_entry float entry.
Proof. by destruct entry as [|price_str [|size_str fields]]. Qed.

Lemma update_entries_take side entries b :
  update_entries float side (take 2 <$> entries) b
  = update_entries float side entries b.
Proof.
  revert b. induction entries as [|entry entries IH]; intros b; [done|].
  rewrite fmap_cons. simpl. rewrite parse_entry_take.
  destruct (parse_entry float entry) as [[price size]|]; [apply IH|done].
Qed.

Lemma raw_get_keep_two_fields side data :
  raw_get side (keep_two_fields data) = take 2 <$> raw_get side data.
Proof.
  unfold raw_get, keep_two_fields.
  destruct side; simpl;
    [by destruct (raw_bids data)|by destruct (raw_asks data)].
Qed.

(** X16: [update] on the message as received returns exactly when each
    entry of both sides has at least two fields and [float] accepts the
    first two; it then leaves the book that the converted levels give,
    bids first, then asks.  In every other case it raises [ValueError]. *)
Theorem update_raw_converts_or_raises data b :
  match parse_data float data with
  | Some parsed => update_raw float data b = (Done, update parsed b)
  | None => (update_raw float data b).1 = Failed ValueError
  end.
Proof.
  unfold parse_data, update_raw.
  destruct (parse_entries float (raw_get Bids data)) as [bid_levels|] eqn:Hbids.
  - rewrite (update_entries_converted Bids _ bid_levels)
      by by apply mapM_Some.
    destruct (parse_entries float (raw_get Asks data)) as [ask_levels|] eqn:Hasks.
    + rewrite (update_entries_converted Asks _ ask_levels)
        by by apply mapM_Some.
      by rewrite update_unfold, (data_get_parsed Bids data bid_levels),
        (data_get_parsed Asks data ask_levels).
    + by apply update_entries_not_converted.
  - pose proof (update_entries_not_converted Bids _ b Hbids) as Hfail.
    by destruct (update_entries float Bids (raw_get Bids data) b) as [[|e] b'];
      simpl in *; simplify_eq.
Qed.

(** X17: [update] is not atomic.  When a bid entry cannot be unpacked or
    converted, the call raises [ValueError] with the bid levels before
    that entry applied; the entries after it and all ask entries are not
    looked at, so the asks are as before. *)
Theorem update_raw_stops_at_bad_bid data b good bad rest levels :
  raw_get Bids data = good ++ bad :: rest →
  parse_entries float good = Some levels →
  parse_entry float bad = None →
  update_raw float data b = (Failed ValueError, update_levels Bids levels b)
  ∧ asks (update_raw float data b).2 = asks b.
Proof.
  intros Hdata Hgood Hbad. apply mapM_Some in Hgood.
  unfold update_raw.
  rewrite Hdata, (update_entries_stops Bids good bad rest levels) by done.
  split; [done|]. simpl.
  apply (get_side_update_levels_other Bids Asks). done.
Qed.

(** X18: when all bid entries convert and an ask entry does not, the call
    raises [ValueError] with every bid level and the ask levels before
    that entry applied. *)
Theorem update_raw_stops_at_bad_ask data b bid_levels good bad rest levels :
  parse_entries float (raw_get Bids data) = Some bid_levels →
  raw_get Asks data = good ++ bad :: rest →
  parse_entries float good = Some levels →
  parse_entry float bad = None →
  update_raw float data b
  = (Failed ValueError,
     update_levels Asks levels (update_levels Bids bid_levels b)).
Proof.
  intros Hbids Hdata Hgood Hbad.
  apply mapM_Some in Hbids. apply mapM_Some in Hgood.
  unfold update_raw.
  rewrite (update_entries_converted Bids _ bid_levels) by done.
  by rewrite Hdata, (update_entries_stops Asks good bad rest levels).
Qed.

(** X19: only the first two fields of an entry count: cutting every entry
    of a message to its first two fields changes neither the outcome nor
    the book. *)
Theorem update_raw_ignores_further_fields data b :
  update_raw float (keep_two_fields data) b = update_raw float data b.
Proof.
  unfold update_raw.
  rewrite !raw_get_keep_two_fields, update_entries_take.
  destruct (update_entries float Bids (raw_get Bids data) b) as [[|e] b'];
    [apply update_entries_take|done].
Qed.

End raw_update_facts.

Lemma update_raw_stops_at_bad_bid_witness :
  (raw_get Bids short_bid_message = [["100"; "1.5"]] ++ ["99"] :: [["101"; "0"]]
   ∧ parse_entries example_float [["100"; "1.5"]] = Some [(qz 100, qfrac 3 2)]
   ∧ parse_entry example_float ["99"] = None)
  ∧ update_raw example_float short_bid_message two_asks
    = (Failed ValueError, update_levels Bids [(qz 100, qfrac 3 2)] two_asks)
  ∧ asks (update_raw example_float short_bid_message two_asks).2 = asks two_asks.
Proof.
  assert (parse_entries example_float [["100"; "1.5"]]
          = Some [(qz 100, qfrac 3 2)]) as Hgood by compute_done.
  assert (parse_entry example_float ["99"] = None) as Hbad by reflexivity.
  split; [exact (conj eq_refl (conj Hgood Hbad))|].
  exact (update_raw_stops_at_bad_bid example_float short_bid_message two_asks
           [["100"; "1.5"]] ["99"] [["101"; "0"]] [(qz 100, qfrac 3 2)]
           eq_refl Hgood Hbad).
Defined.

Lemma update_raw_stops_at_bad_ask_witness :
  (parse_entries example_float (raw_get Bids bad_ask_message)
   = Some [(qz 99, qfrac 3 2)]
   ∧ raw_get Asks bad_ask_message = [["100"; "1.5"]] ++ ["101"; "x"] :: []
   ∧ parse_entries example_float [["100"; "1.5"]] = Some [(qz 100, qfrac 3 2)]
   ∧ parse_entry example_float ["101"; "x"] = None)
  ∧ update_raw example_float bad_ask_message OrderBook_init
    = (Failed ValueError,
       update_levels Asks [(qz 100, qfrac 3 2)]
         (update_levels Bids [(qz 99, qfrac 3 2)] OrderBook_init)).
Proof.
  assert (parse_entries example_float (raw_get Bids bad_ask_message)
          = Some [(qz 99, qfrac 3 2)]) as Hbids by compute_done.
  assert (parse_entries example_float [["100"; "1.5"]]
          = Some [(qz 100, qfrac 3 2)]) as Hgood by compute_done.
  assert (parse_entry example_float ["101"; "x"] = None) as Hbad by reflexivity.
  split; [exact (conj Hbids (conj eq_refl (conj Hgood Hbad)))|].
  exact (update_raw_stops_at_bad_ask example_float bad_ask_message OrderBook_init
           [(qz 99, qfrac 3 2)] [["100"; "1.5"]] ["101"; "x"] []
           [(qz 100, qfrac 3 2)] Hbids eq_refl Hgood Hbad).
Defined.

(** * The binary64 code *)

(** ** The walk *)

Lemma B64_walk_cons lv l w :
  B64.walk (lv :: l) w
  = if PrimFloat.leb (B64.remaining_qty (B64.walk_step lv w)) PrimFloat.zero
    then B64.walk_step lv w
    else B64.walk l (B64.walk_step lv w).
Proof. reflexivity. Qed.


(** When the walk over the first levels [l] ends with nothing remaining,
    it stopped there: the levels after [l] are not visited. *)
Lemma B64_walk_filled l rest w :
  l ≠ [] →
  PrimFloat.leb (B64.remaining_qty (B64.walk l w)) PrimFloat.zero = true →
  B64.walk (l ++ rest) w = B64.walk l w.
Proof.
  revert w. induction l as [|lv l IH]; intros w Hne Hrem; [done|].
  rewrite <- app_comm_cons, !B64_walk_cons in *.
  destruct (PrimFloat.leb (B64.remaining_qty (B64.walk_step lv w)) PrimFloat.zero)
    eqn:Hbreak; [done|].
  destruct l as [|lv' l].
  - simpl in Hrem. by rewrite Hbreak in Hrem.
  - by apply IH.
Qed.

(** ** What the binary64 [_simulate_trade] returns *)

(** For every float quantity, NaN and the infinities included, the call
    raises nothing and writes nothing: the division is guarded by
    [executed_qty == 0] and the indexing by [executed_qty > 0], which an
    empty view never satisfies. *)
Lemma B64_simulate_trade_run quantity is_buy self :
  B64._simulate_trade quantity is_buy self
  = (Ok (B64.report_of is_buy (B64.book_side is_buy (orderbook self))
           (B64.of_Qc (taker_fee_rate self)) quantity), self).
Proof.
  unfold B64._simulate_trade, B64.report_of, Py.bind, Py.gets, Py.ret, Py.lift.
  set (levels := B64.book_side is_buy (orderbook self)).
  destruct levels as [|lv0 rest] eqn:Hlevels; [done|].
  set (w := B64.walk (lv0 :: rest) (B64.walk_init quantity)).
  assert (∃ lv, (if is_buy then Py.index (lv0 :: rest) 0
                 else Py.index (lv0 :: rest) (-1)) = Ok lv
                ∧ (fst <$> (if is_buy then head (lv0 :: rest)
                            else last (lv0 :: rest))) = Some lv.1)
    as (lv & Hindex & Hbest).
  { destruct is_buy.
    - exists lv0. by rewrite index_first.
    - destruct (last (lv0 :: rest)) as [lv|] eqn:Hlast.
      + exists lv. by rewrite (index_last _ _ Hlast).
      + by apply last_None in Hlast. }
  unfold B64.div. rewrite Hindex, Hbest.
  destruct (PrimFloat.eqb (B64.executed_qty w) PrimFloat.zero);
    by destruct (PrimFloat.ltb PrimFloat.zero (B64.executed_qty w)).
Qed.

Lemma B64_book_side_empty is_buy b :
  get_side (consumed_side is_buy) b = ∅ → B64.book_side is_buy b = [].
Proof.
  intros Hempty. unfold B64.book_side.
  pose proof (sorted_view_empty (consumed_side is_buy) b Hempty) as Hview.
  destruct is_buy; simpl in Hview; by rewrite Hview.
Qed.


(** ** Properties of the specification, on the binary64 code *)

(** C2, as the code has it: a simulate call is not rejected, whatever the
    quantity, so in particular for a quantity <= 0.  For both directions
    it returns a report through the normal channel and leaves the
    simulator, hence the book, as it was; on an empty consumed side that
    report has executedQuantity, averagePrice, totalCost and slippage 0
    and remainingQuantity equal to the quantity. *)
Theorem nonpositive_quantity_is_simulated (quantity : PrimFloat.float) is_buy self :
  ¬ rejects (B64._simulate_trade quantity is_buy) self
  ∧ ∃ r, B64._simulate_trade quantity is_buy self = (Ok r, self)
       ∧ (get_side (consumed_side is_buy) (orderbook self) = ∅ →
          B64.executed_quantity r = PrimFloat.zero
          ∧ B64.average_price r = PrimFloat.zero
          ∧ B64.total_cost r = PrimFloat.zero
          ∧ B64.slippage r = PrimFloat.zero
          ∧ B64.remaining_quantity r = quantity).
Proof.
  split.
  - intros [e He]. by rewrite B64_simulate_trade_run in He.
  - eexists. split; [apply B64_simulate_trade_run|].
    intros Hempty. by rewrite (B64_book_side_empty _ _ Hempty).
Qed.

Lemma nonpositive_quantity_is_simulated_witness :
  (PrimFloat.leb (B64.of_Z (-1)) PrimFloat.zero = true
   ∧ get_side (consumed_side true) (orderbook (simulator_of two_bids)) = ∅)
  ∧ ¬ rejects (B64.simulate_buy (B64.of_Z (-1))) (simulator_of two_bids)
  ∧ ∃ r, B64.simulate_buy (B64.of_Z (-1)) (simulator_of two_bids)
         = (Ok r, simulator_of two_bids)
       ∧ B64.executed_quantity r = PrimFloat.zero
       ∧ B64.average_price r = PrimFloat.zero
       ∧ B64.total_cost r = PrimFloat.zero
       ∧ B64.slippage r = PrimFloat.zero
       ∧ B64.remaining_quantity r = B64.of_Z (-1).
Proof.
  assert (PrimFloat.leb (B64.of_Z (-1)) PrimFloat.zero = true) as Hq
    by (vm_compute; reflexivity).
  assert (get_side (consumed_side true) (orderbook (simulator_of two_bids)) = ∅)
    as Hempty by reflexivity.
  split; [exact (conj Hq Hempty)|].
  destruct (nonpositive_quantity_is_simulated (B64.of_Z (-1)) true
              (simulator_of two_bids)) as (Hnot & r & Hrun & Hzero).
  split; [exact Hnot|].
  exists r. exact (conj Hrun (Hzero Hempty)).
Defined.







(** X13: levels behind the one that fills an order do not matter: when the
    views of two books start with the same levels [l] and the walk over
    [l] ends with nothing remaining, the two reports agree on
    executedQuantity, averagePrice, totalCost, fee and remainingQuantity,
    and for a buy on slippage too. *)
Theorem deeper_levels_are_ignored (quantity : PrimFloat.float) is_buy self self'
    (l rest rest' : list B64.Level) :
  B64.book_side is_buy (orderbook self) = l ++ rest →
  B64.book_side is_buy (orderbook self') = l ++ rest' →
  taker_fee_rate self = taker_fee_rate self' →
  l ≠ [] →
  PrimFloat.leb (B64.remaining_qty (B64.walk l (B64.walk_init quantity)))
    PrimFloat.zero = true →
  ∃ r r', B64._simulate_trade quantity is_buy self = (Ok r, self)
        ∧ B64._simulate_trade quantity is_buy self' = (Ok r', self')
        ∧ B64.executed_quantity r = B64.executed_quantity r'
        ∧ B64.average_price r = B64.average_price r'
        ∧ B64.total_cost r = B64.total_cost r'
        ∧ B64.fee r = B64.fee r'
        ∧ B64.remaining_quantity r = B64.remaining_quantity r'
        ∧ (is_buy = true → r = r').
Proof.
  intros Hview Hview' Hrate Hne Hfilled.
  eexists. eexists. split; [apply B64_simulate_trade_run|].
  split; [apply B64_simulate_trade_run|].
  rewrite Hview, Hview', Hrate. unfold B64.report_of.
  rewrite !(B64_walk_filled l) by done. simpl.
  split_and!; try done.
  intros ->. by destruct l.
Qed.

Lemma deeper_levels_are_ignored_witness :
  (B64.book_side true (orderbook (simulator_of two_asks))
   = [B64.level_of (qz 100, qz 1)] ++ [B64.level_of (qz 101, qz 2)]
   ∧ B64.book_side true (orderbook (simulator_of one_ask))
     = [B64.level_of (qz 100, qz 1)] ++ []
   ∧ [B64.level_of (qz 100, qz 1)] ≠ []
   ∧ PrimFloat.leb
       (B64.remaining_qty
          (B64.walk [B64.level_of (qz 100, qz 1)]
             (B64.walk_init (B64.of_Qc (qfrac 1 2)))))
       PrimFloat.zero = true)
  ∧ ∃ r r', B64.simulate_buy (B64.of_Qc (qfrac 1 2)) (simulator_of two_asks)
            = (Ok r, simulator_of two_asks)
          ∧ B64.simulate_buy (B64.of_Qc (qfrac 1 2)) (simulator_of one_ask)
            = (Ok r', simulator_of one_ask)
          ∧ r = r'.
Proof.
  assert (B64.book_side true (orderbook (simulator_of two_asks))
          = [B64.level_of (qz 100, qz 1)] ++ [B64.level_of (qz 101, qz 2)])
    as Hview by (vm_compute; reflexivity).
  assert (B64.book_side true (orderbook (simulator_of one_ask))
          = [B64.level_of (qz 100, qz 1)] ++ []) as Hview'
    by (vm_compute; reflexivity).
  assert ([B64.level_of (qz 100, qz 1)] ≠ []) as Hne by discriminate.
  assert (PrimFloat.leb
            (B64.remaining_qty
               (B64.walk [B64.level_of (qz 100, qz 1)]
                  (B64.walk_init (B64.of_Qc (qfrac 1 2)))))
            PrimFloat.zero = true) as Hfilled by (vm_compute; reflexivity).
  split; [exact (conj Hview (conj Hview' (conj Hne Hfilled)))|].
  destruct (deeper_levels_are_ignored (B64.of_Qc (qfrac 1 2)) true
              (simulator_of two_asks) (simulator_of one_ask)
              [B64.level_of (qz 100, qz 1)] [B64.level_of (qz 101, qz 2)] []
              Hview Hview' eq_refl Hne Hfilled)
    as (r & r' & Hrun & Hrun' & _ & _ & _ & _ & _ & Hsame).
  exists r, r'. exact (conj Hrun (conj Hrun' (Hsame eq_refl))).
Defined.
